(** * ask: provider clients (package internal/providers)

    A shallow embedding of the provider layer of the [ask] terminal
    assistant: the shared transport routine [doJSON], the request
    validation and error heuristics of [http.go], the content extractor
    and the four adapters (OpenAI-compatible, Anthropic, Gemini, Ollama),
    followed by the properties of the specification that concern them.

    Go strings are byte sequences; they are modelled by [string], whose
    characters are the 256 byte values.  The network is modelled by an
    explicit state: a server that answers one request at a time and the
    log of the requests that were sent to it. *)

From Stdlib Require Import String Ascii List Bool Arith NArith ZArith Lia.
From Stdlib Require Import Sorting.Sorted Sorting.Permutation.
Import ListNotations.

Local Open Scope list_scope.
Local Open Scope string_scope.

Set Implicit Arguments.

(** ** Go's [strings] package on byte strings *)

Module GoStrings.

(** Reversal of a byte string (used to scan from the right end). *)
Fixpoint rev (s : string) : string :=
match s with
| EmptyString => EmptyString
| String c t => rev t ++ String c EmptyString
end.

(** [s[n:]] for [n <= len(s)]. *)
Fixpoint drop (n : nat) (s : string) : string :=
match n, s with
| O, _ => s
| S n', String _ t => drop n' t
| S _, EmptyString => EmptyString
end.

(** [s[:n]] for [n <= len(s)]. *)
Fixpoint take (n : nat) (s : string) : string :=
match n, s with
| O, _ => EmptyString
| S n', String c t => String c (take n' t)
| S _, EmptyString => EmptyString
end.

Definition isEmpty (s : string) : bool :=
match s with EmptyString => true | _ => false end.

(** [strings.HasPrefix(s, p)]. *)
Definition HasPrefix (s p : string) : bool := String.prefix p s.

(** [strings.TrimPrefix(s, p)]: [p] is removed once, when present. *)
Definition TrimPrefix (s p : string) : string :=
if HasPrefix s p then drop (String.length p) s else s.

(** [strings.Contains(s, sub)]. *)
Fixpoint Contains (s sub : string) : bool :=
HasPrefix s sub ||
match s with
| EmptyString => false
| String _ t => Contains t sub
end.

(** [strings.Join(parts, sep)]. *)
Definition Join (parts : list string) (sep : string) : string :=
String.concat sep parts.

(** *** White space

  [unicode.IsSpace] holds of U+0009..U+000D, U+0020, U+0085, U+00A0,
  U+1680, U+2000..U+200A, U+2028, U+2029, U+202F, U+205F and U+3000.
  [strings.TrimSpace] decodes UTF-8 from both ends; a byte sequence that
  is not the encoding of a rune decodes to U+FFFD, which is no space.
  The three predicates below recognise the encodings of one, two and
  three bytes of the white space runes. *)

Definition code (c : ascii) : N := N_of_ascii c.

Definition isSpace1 (c : ascii) : bool :=
((9 <=? code c) && (code c <=? 13) || (code c =? 32))%N.

Definition isSpace2 (c1 c2 : ascii) : bool :=
((code c1 =? 0xC2) && ((code c2 =? 0x85) || (code c2 =? 0xA0)))%N.

Definition isSpace3 (c1 c2 c3 : ascii) : bool :=
((code c1 =? 0xE1) && (code c2 =? 0x9A) && (code c3 =? 0x80)
 || (code c1 =? 0xE2) && (code c2 =? 0x80)
    && ((0x80 <=? code c3) && (code c3 <=? 0x8A)
        || (code c3 =? 0xA8) || (code c3 =? 0xA9) || (code c3 =? 0xAF))
 || (code c1 =? 0xE2) && (code c2 =? 0x81) && (code c3 =? 0x9F)
 || (code c1 =? 0xE3) && (code c2 =? 0x80) && (code c3 =? 0x80))%N.

Section TrimRunes.
(** Recognisers of the runes to trim, by encoded length; the arguments
  are given in scanning order. *)
Variable p1 : ascii -> bool.
Variable p2 : ascii -> ascii -> bool.
Variable p3 : ascii -> ascii -> ascii -> bool.

(** Removes every recognised rune from the head of [s]. *)
Fixpoint trimHead (s : string) : string :=
match s with
| String c1 r1 =>
    if p1 c1 then trimHead r1 else
    match r1 with
    | String c2 r2 =>
        if p2 c1 c2 then trimHead r2 else
        match r2 with
        | String c3 r3 => if p3 c1 c2 c3 then trimHead r3 else s
        | EmptyString => s
        end
    | EmptyString => s
    end
| EmptyString => s
end.
End TrimRunes.

(** [strings.TrimLeftFunc(s, unicode.IsSpace)]. *)
Definition TrimLeftSpace (s : string) : string :=
trimHead isSpace1 isSpace2 isSpace3 s.

(** [strings.TrimRightFunc(s, unicode.IsSpace)]: the same scan on the
  reversed string, where the bytes of a rune arrive last byte first. *)
Definition TrimRightSpace (s : string) : string :=
rev (trimHead isSpace1 (fun c c' => isSpace2 c' c)
              (fun c c' c'' => isSpace3 c'' c' c) (rev s)).

(** [strings.TrimSpace(s)]. *)
Definition TrimSpace (s : string) : string :=
TrimRightSpace (TrimLeftSpace s).

(** [strings.TrimRight(s, cutset)] for a cutset of one ASCII byte. *)
Fixpoint dropWhileByte (c : ascii) (s : string) : string :=
match s with
| String c' t => if Ascii.eqb c' c then dropWhileByte c t else s
| EmptyString => s
end.

Definition TrimRightByte (s : string) (c : ascii) : string :=
rev (dropWhileByte c (rev s)).

(** ASCII case folding of one byte. *)
Definition lowerByte (c : ascii) : ascii :=
if ((65 <=? code c) && (code c <=? 90))%N
then ascii_of_N (code c + 32) else c.

(** [strings.EqualFold(s, t)] when [t] is ASCII and has no letter [k] or
  [s] (the only ASCII letters that Unicode simple folding relates to a
  rune outside ASCII): the strings are equal up to the case of ASCII
  letters. *)
Fixpoint EqualFold (s t : string) : bool :=
match s, t with
| EmptyString, EmptyString => true
| String a s', String b t' =>
    Ascii.eqb (lowerByte a) (lowerByte b) && EqualFold s' t'
| _, _ => false
end.

End GoStrings.

Import GoStrings.

(** The line feed byte, Go's ["\n"]. *)
Definition nl : string := String "010" EmptyString.

(** ** Data model (providers.go) *)

(** Errors are modelled by the text that [err.Error()] returns. *)
Definition error := string.

Inductive result (A : Type) : Type :=
| Ok (a : A)
| Err (e : error).
Arguments Ok {A} a.
Arguments Err {A} e.

(** [Model] describes a model option exposed by a provider. *)
Record Model := { ID : string; DisplayName : string }.

(** [AskRequest]; the field [Model] of the source is [ReqModel] here, the
    name [Model] being taken by the record above. *)
Record AskRequest := {
  ReqModel : string;
  Prompt : string;
  Question : string;
  ExpectJSON : bool
}.

Record AskResponse := { Text : string }.

(** [ClientOptions].  [Headers] lists the entries of the Go map in the
    order in which [range] visits them; the HTTP client is the network of
    the model. *)
Record ClientOptions := {
  APIKey : string;
  BaseURL : string;
  Headers : list (string * string)
}.

Record OpenAICompatibleSettings := {
  Name : string;
  ModelsPath : string;
  ChatPath : string;
  AuthHeader : string;
  AuthPrefix : string;
  RequireAPIKey : bool
}.

(** ** JSON values

    The values that [encoding/json] produces for a field of type [any]
    ([nil], [bool], [float64], [string], [[]any], [map[string]any]); the
    request payloads, which the source builds as [map[string]any], are
    values of the same type.  A number is [mantissa * 10 ^ exp10]. *)
#[warning="-register-all"]
Inductive JSON : Type :=
| JNull
| JBool (b : bool)
| JNumber (mantissa exp10 : Z)
| JString (s : string)
| JArray (items : list JSON)
| JObject (fields : list (string * JSON)).

(** [m[key]] on a Go map given by its entries. *)
Fixpoint lookup {V : Type} (key : string) (m : list (string * V)) : option V :=
  match m with
  | [] => None
  | (k, v) :: rest => if String.eqb k key then Some v else lookup key rest
  end.

(** The field [key] of a payload, when the payload is an object. *)
Definition field (key : string) (j : JSON) : option JSON :=
  match j with
  | JObject fields => lookup key fields
  | _ => None
  end.

(** The type name that [fmt]'s [%T] prints for a decoded value. *)
Definition typeName (j : JSON) : string :=
  match j with
  | JNull => "<nil>"
  | JBool _ => "bool"
  | JNumber _ _ => "float64"
  | JString _ => "string"
  | JArray _ => "[]interface {}"
  | JObject _ => "map[string]interface {}"
  end.

(** [json.Unmarshal(body, out)]: the value that [out] points to after the
    call, and the error if any.  Decoding is the library's; every
    response structure comes with its decoder. *)
Class JSONTarget (Out : Type) : Type :=
  unmarshal : string -> Out -> Out * option error.

(** ** HTTP requests and the network *)

(** [textproto.CanonicalMIMEHeaderKey]: a key made of token bytes only gets
    an upper case letter first and after each dash and lower case letters
    elsewhere; any other key is left as it is. *)
Definition validHeaderFieldByte (c : ascii) : bool :=
  let n := code c in
  ((48 <=? n) && (n <=? 57) || (65 <=? n) && (n <=? 90)
   || (97 <=? n) && (n <=? 122)
   || existsb (N.eqb n) [33; 35; 36; 37; 38; 39; 42; 43; 45; 46; 94; 95; 96; 124; 126])%N.

Definition upperByte (c : ascii) : ascii :=
  if ((97 <=? code c) && (code c <=? 122))%N
  then ascii_of_N (code c - 32) else c.

Fixpoint canonicalBytes (upper : bool) (s : string) : string :=
  match s with
  | EmptyString => EmptyString
  | String c t =>
      let c' := if upper then upperByte c else lowerByte c in
      String c' (canonicalBytes (Ascii.eqb c' "-") t)
  end.

Fixpoint allBytes (p : ascii -> bool) (s : string) : bool :=
  match s with
  | EmptyString => true
  | String c t => p c && allBytes p t
  end.

Definition CanonicalMIMEHeaderKey (s : string) : string :=
  if allBytes validHeaderFieldByte s then canonicalBytes true s else s.

(** [http.Header], one value per key as [Set] leaves it. *)
Definition Header := list (string * string).

Definition Header_Set (key value : string) (h : Header) : Header :=
  let k := CanonicalMIMEHeaderKey key in
  (k, value) :: filter (fun kv => negb (String.eqb (fst kv) k)) h.

Definition Header_Get (key : string) (h : Header) : option string :=
  lookup (CanonicalMIMEHeaderKey key) h.

Record Request := {
  Method : string;
  URL : string;
  Hdr : Header;
  Body : option JSON
}.

Record Response := {
  StatusCode : Z;
  Status : string;
  RespBody : string
}.

(** What one call of [client.Do] followed by [io.ReadAll] yields. *)
Inductive RoundTrip : Type :=
| DoFailed (msg : error)
| ReadFailed (msg : error)
| Responded (resp : Response).

(** The parts of the platform that the adapters use and do not define:
    [strings.ToLower] (Unicode case mapping), the URL check of
    [http.NewRequest] (the error text for a URL that does not parse), and
    the server at the other end of the HTTP client. *)
Class Platform : Type := {
  ToLower : string -> string;
  urlError : string -> option error;
  ServerState : Type;
  serve : ServerState -> Request -> RoundTrip * ServerState
}.

Section Transport.
Context {P : Platform}.

(** The network: the server's state and the requests sent so far. *)
Record Net := { server : ServerState; sent : list Request }.

(** Computations that use the network. *)
Definition HTTP (A : Type) : Type := Net -> A * Net.

Definition ret {A : Type} (a : A) : HTTP A := fun n => (a, n).

Definition bind {A B : Type} (m : HTTP A) (k : A -> HTTP B) : HTTP B :=
  fun n => let (a, n') := m n in k a n'.

(** [client.Do(req)] and the reading of the response body. *)
Definition clientDo (req : Request) : HTTP RoundTrip :=
  fun n =>
    let (rt, s') := serve (server n) req in
    (rt, {| server := s'; sent := (sent n ++ [req])%list |}).

(** [http.NewRequest(method, url, nil)]. *)
Definition NewRequest (method url : string) : result Request :=
  match urlError url with
  | Some e => Err e
  | None => Ok {| Method := method; URL := url; Hdr := []; Body := None |}
  end.
End Transport.

Notation "x <- m ;; k" := (bind m (fun x => k))
  (at level 61, m at next level, right associativity).

(** ** http.go *)

Section HTTPHelpers.
Context {P : Platform}.

(** [truncate(s, max)]. *)
Definition truncate (s : string) (max : nat) : string :=
  if Nat.leb (String.length s) max then s else take max s ++ "...".

(** [doJSON(ctx, client, req, payload, out)].  [out] is [None] for a nil
    [out] and [Some o] for a pointer to [o]; the result is what [out]
    points to after the call, and the error.  A payload of the model
    always encodes, so the branch of [json.Marshal] failing is absent;
    encoding sets the body and the content type of the request. *)
Definition withJSONBody (req : Request) (payload : option JSON) : Request :=
  match payload with
  | Some p =>
      {| Method := Method req; URL := URL req;
         Hdr := Header_Set "Content-Type" "application/json" (Hdr req);
         Body := Some p |}
  | None => req
  end.

Definition doJSON {Out : Type} `{JSONTarget Out}
    (req : Request) (payload : option JSON) (out : option Out)
  : HTTP (option Out * option error) :=
  rt <- clientDo (withJSONBody req payload);;
  match rt with
  | DoFailed e => ret (out, Some ("http request failed: " ++ e))
  | ReadFailed e => ret (out, Some ("read response: " ++ e))
  | Responded resp =>
      if (400 <=? StatusCode resp)%Z then
        ret (out, Some ("provider returned " ++ Status resp ++ ": "
                        ++ truncate (RespBody resp) 700))
      else
        match out with
        | None => ret (None, None)
        | Some o =>
            if isEmpty (TrimSpace (RespBody resp)) then ret (Some o, None)
            else
              match unmarshal (RespBody resp) o with
              | (o', Some e) =>
                  ret (Some o',
                       Some ("decode response JSON: " ++ e ++ "; body="
                             ++ truncate (RespBody resp) 700))
              | (o', None) => ret (Some o', None)
              end
        end
  end.

(** The structure behind [out] after a call that was given [&o]. *)
Definition deref {Out : Type} (o : Out) (out : option Out) : Out :=
  match out with Some o' => o' | None => o end.

(** [validateAskRequest(req)]. *)
Definition validateAskRequest (req : AskRequest) : option error :=
  if isEmpty (TrimSpace (ReqModel req)) then Some "model is required"
  else if isEmpty (TrimSpace (Question req)) then Some "question is required"
  else None.

(** [responseFormatLikelyUnsupported(err)]. *)
Definition responseFormatLikelyUnsupported (err : option error) : bool :=
  match err with
  | None => false
  | Some e =>
      let msg := ToLower e in
      Contains msg "response_format"
      || Contains msg "responsemimetype"
      || Contains msg "response_mime_type"
  end.

(** [joinURL(base, path)]. *)
Definition joinURL (base path : string) : string :=
  let base := TrimRightByte (TrimSpace base) "/" in
  let path := TrimSpace path in
  if isEmpty path then base
  else if HasPrefix path "http://" || HasPrefix path "https://" then path
  else if negb (HasPrefix path "/") then base ++ "/" ++ path
  else base ++ path.

(** [ensureLeadingSlash(s)]. *)
Definition ensureLeadingSlash (s : string) : string :=
  let s := TrimSpace s in
  if isEmpty s then ""
  else if HasPrefix s "/" then s
  else "/" ++ s.

(** [normalize(name)] of providers.go. *)
Definition normalize (name : string) : string := ToLower (TrimSpace name).

(** The loop shared by every [setHeaders]: the static headers with a
    blank key or a blank value are skipped, the others are set. *)
Definition setStaticHeaders (headers : list (string * string)) (h : Header)
  : Header :=
  fold_left
    (fun h kv =>
       if isEmpty (TrimSpace (fst kv)) || isEmpty (TrimSpace (snd kv)) then h
       else Header_Set (fst kv) (snd kv) h)
    headers h.

Definition withHeader (req : Request) (h : Header) : Request :=
  {| Method := Method req; URL := URL req; Hdr := h; Body := Body req |}.

(** The loops [for _, x := range xs { ...; out = append(out, ...) }] of
    the adapters: [step x] is what one iteration appends. *)
Definition collect {A B : Type} (step : A -> list B) (xs : list A) : list B :=
  fold_left (fun out x => (out ++ step x)%list) xs [].

(** [sort.Slice(models, less)].  The library sorts in place and does not
    promise an order among entries that [less] does not separate; the
    model inserts the entries one by one. *)
Fixpoint insertSorted {A : Type} (less : A -> A -> bool) (x : A) (l : list A)
  : list A :=
  match l with
  | [] => [x]
  | y :: t => if less x y then x :: l else y :: insertSorted less x t
  end.

Definition sortSlice {A : Type} (less : A -> A -> bool) (l : list A) : list A :=
  fold_right (insertSorted less) [] l.

(** The comparison of every [ListModels]: [models[i].ID < models[j].ID]. *)
Definition lessID (a b : Model) : bool := String.ltb (ID a) (ID b).
End HTTPHelpers.

(** ** openai_compatible.go *)

(** [extractMessageContent(content)]. *)
Definition extractMessageContent (content : JSON) : result string :=
  match content with
  | JString value => Ok (TrimSpace value)
  | JArray value =>
      let parts :=
        collect
          (fun item =>
             match item with
             | JObject obj =>
                 let text :=
                   match lookup "text" obj with
                   | Some (JString t) => t
                   | _ => ""
                   end in
                 if isEmpty (TrimSpace text) then [] else [text]
             | _ => []
             end)
          value in
      match parts with
      | [] => Err "array content had no text parts"
      | _ => Ok (TrimSpace (Join parts nl))
      end
  | _ => Err ("unsupported content type " ++ typeName content)
  end.

Module OpenAICompatible.

Record client := {
  name : string;
  apiKey : string;
  base : string;
  modelsPath : string;
  chatPath : string;
  authHeader : string;
  authPrefix : string;
  requireAPIKey : bool;
  headers : list (string * string)
}.

(** The response of the models endpoint: [{data: [{id}]}]. *)
Record modelsEntry := { EntryID : string }.
Record modelsResponse := { Data : list modelsEntry }.

(** The response of the chat endpoint:
    [{choices: [{message: {content}}]}]. *)
Record message := { Content : JSON }.
Record choice := { Message : message }.
Record chatResponse := { Choices : list choice }.

Section Client.
Context {P : Platform}.
Context {decodeModels : JSONTarget modelsResponse}.
Context {decodeChat : JSONTarget chatResponse}.

Definition newOpenAICompatibleClient
    (settings : OpenAICompatibleSettings) (opts : ClientOptions) : client :=
  let modelsPath :=
    if isEmpty (TrimSpace (ModelsPath settings)) then "/models"
    else ModelsPath settings in
  let chatPath :=
    if isEmpty (TrimSpace (ChatPath settings)) then "/chat/completions"
    else ChatPath settings in
  let authHeader :=
    if isEmpty (TrimSpace (AuthHeader settings)) then "Authorization"
    else AuthHeader settings in
  let authPrefix :=
    if isEmpty (AuthPrefix settings) then "Bearer "
    else AuthPrefix settings in
  {| name := normalize (Name settings);
     apiKey := TrimSpace (APIKey opts);
     base := TrimRightByte (TrimSpace (BaseURL opts)) "/";
     modelsPath := ensureLeadingSlash modelsPath;
     chatPath := ensureLeadingSlash chatPath;
     authHeader := authHeader;
     authPrefix := authPrefix;
     requireAPIKey := RequireAPIKey settings;
     headers := Headers opts |}.

Definition requiresAPIKey (c : client) : bool := requireAPIKey c.

Definition setHeaders (c : client) (req : Request) : Request :=
  let h :=
    if requiresAPIKey c && negb (isEmpty (apiKey c))
    then Header_Set (authHeader c) (authPrefix c ++ apiKey c) (Hdr req)
    else Hdr req in
  withHeader req (setStaticHeaders (headers c) h).

Definition ListModels (c : client) : HTTP (result (list Model)) :=
  if requiresAPIKey c && isEmpty (apiKey c) then
    ret (Err ("API key not configured for " ++ name c))
  else
    match NewRequest "GET" (joinURL (base c) (modelsPath c)) with
    | Err e => ret (Err ("build request: " ++ e))
    | Ok req =>
        let req := setHeaders c req in
        let resp := {| Data := [] |} in
        r <- doJSON req None (Some resp);;
        match snd r with
        | Some e => ret (Err e)
        | None =>
            let resp := deref resp (fst r) in
            let models :=
              collect
                (fun m =>
                   let id := TrimSpace (EntryID m) in
                   if isEmpty id then []
                   else [{| ID := id; DisplayName := id |}])
                (Data resp) in
            ret (Ok (sortSlice lessID models))
        end
    end.

(** The payload of one attempt. *)
Definition chatPayload (reqBody : AskRequest) (includeResponseFormat : bool)
  : JSON :=
  let payload :=
    [ ("model", JString (ReqModel reqBody));
      ("messages",
       JArray
         [ JObject [("role", JString "system");
                    ("content", JString (Prompt reqBody))];
           JObject [("role", JString "user");
                    ("content", JString (Question reqBody))] ]);
      ("temperature", JNumber 2 (-1)) ] in
  JObject
    (if ExpectJSON reqBody && includeResponseFormat
     then (payload
           ++ [("response_format",
                JObject [("type", JString "json_object")])])%list
     else payload).

Definition askWithPayload (c : client) (url : string)
    (reqBody : AskRequest) (includeResponseFormat : bool)
  : HTTP (chatResponse * option error) :=
  match NewRequest "POST" url with
  | Err e => ret ({| Choices := [] |}, Some ("build request: " ++ e))
  | Ok req =>
      let req := setHeaders c req in
      let payload := chatPayload reqBody includeResponseFormat in
      let resp := {| Choices := [] |} in
      r <- doJSON req (Some payload) (Some resp);;
      ret (deref resp (fst r), snd r)
  end.

Definition Ask (c : client) (reqBody : AskRequest)
  : HTTP (result AskResponse) :=
  match validateAskRequest reqBody with
  | Some e => ret (Err e)
  | None =>
      if requiresAPIKey c && isEmpty (apiKey c) then
        ret (Err ("API key not configured for " ++ name c))
      else
        let url := joinURL (base c) (chatPath c) in
        r <- askWithPayload c url reqBody true;;
        r <- (match snd r with
              | Some _ =>
                  if ExpectJSON reqBody
                     && responseFormatLikelyUnsupported (snd r)
                  then askWithPayload c url reqBody false
                  else ret r
              | None => ret r
              end);;
        match snd r with
        | Some e => ret (Err e)
        | None =>
            match Choices (fst r) with
            | [] => ret (Err ("no choices returned by " ++ name c))
            | first :: _ =>
                match extractMessageContent (Content (Message first)) with
                | Err e =>
                    ret (Err ("decode " ++ name c
                              ++ " response content: " ++ e))
                | Ok text => ret (Ok {| Text := text |})
                end
            end
        end
  end.
End Client.
End OpenAICompatible.

(** ** ollama.go *)

Module Ollama.

Record client := { base : string }.

(** [{models: [{name}]}] and [{message: {content}}]. *)
Record tagsEntry := { EntryName : string }.
Record tagsResponse := { Models : list tagsEntry }.
Record message := { Content : string }.
Record chatResponse := { Message : message }.

Section Client.
Context {P : Platform}.
Context {decodeTags : JSONTarget tagsResponse}.
Context {decodeChat : JSONTarget chatResponse}.

Definition ListModels (c : client) : HTTP (result (list Model)) :=
  match NewRequest "GET" (joinURL (base c) "/api/tags") with
  | Err e => ret (Err ("build request: " ++ e))
  | Ok req =>
      let resp := {| Models := [] |} in
      r <- doJSON req None (Some resp);;
      match snd r with
      | Some e => ret (Err e)
      | None =>
          let resp := deref resp (fst r) in
          let models :=
            collect
              (fun m =>
                 let id := TrimSpace (EntryName m) in
                 if isEmpty id then []
                 else [{| ID := id; DisplayName := id |}])
              (Models resp) in
          ret (Ok (sortSlice lessID models))
      end
  end.

Definition chatPayload (reqBody : AskRequest) : JSON :=
  let payload :=
    [ ("model", JString (ReqModel reqBody));
      ("messages",
       JArray
         [ JObject [("role", JString "system");
                    ("content", JString (Prompt reqBody))];
           JObject [("role", JString "user");
                    ("content", JString (Question reqBody))] ]);
      ("stream", JBool false) ] in
  JObject
    (if ExpectJSON reqBody
     then (payload ++ [("format", JString "json")])%list
     else payload).

Definition Ask (c : client) (reqBody : AskRequest)
  : HTTP (result AskResponse) :=
  match validateAskRequest reqBody with
  | Some e => ret (Err e)
  | None =>
      match NewRequest "POST" (joinURL (base c) "/api/chat") with
      | Err e => ret (Err ("build request: " ++ e))
      | Ok req =>
          let resp := {| Message := {| Content := "" |} |} in
          r <- doJSON req (Some (chatPayload reqBody)) (Some resp);;
          match snd r with
          | Some e => ret (Err e)
          | None =>
              let resp := deref resp (fst r) in
              if isEmpty (TrimSpace (Content (Message resp))) then
                ret (Err "ollama response had empty content")
              else ret (Ok {| Text := Content (Message resp) |})
          end
      end
  end.
End Client.
End Ollama.

(** ** anthropic.go *)

Module Anthropic.

Record client := {
  apiKey : string;
  base : string;
  headers : list (string * string)
}.

(** [{data: [{id, display_name}]}] and [{content: [{type, text}]}]. *)
Record modelsEntry := { EntryID : string; EntryDisplayName : string }.
Record modelsResponse := { Data : list modelsEntry }.
Record block := { BlockType : string; BlockText : string }.
Record messagesResponse := { Content : list block }.

Section Client.
Context {P : Platform}.
Context {decodeModels : JSONTarget modelsResponse}.
Context {decodeMessages : JSONTarget messagesResponse}.

Definition setHeaders (c : client) (req : Request) : Request :=
  let h := Header_Set "x-api-key" (apiKey c) (Hdr req) in
  let h := Header_Set "anthropic-version" "2023-06-01" h in
  withHeader req (setStaticHeaders (headers c) h).

Definition ListModels (c : client) : HTTP (result (list Model)) :=
  if isEmpty (apiKey c) then ret (Err "ANTHROPIC_API_KEY not configured")
  else
    match NewRequest "GET" (joinURL (base c) "/v1/models") with
    | Err e => ret (Err ("build request: " ++ e))
    | Ok req =>
        let req := setHeaders c req in
        let resp := {| Data := [] |} in
        r <- doJSON req None (Some resp);;
        match snd r with
        | Some e => ret (Err e)
        | None =>
            let resp := deref resp (fst r) in
            let models :=
              collect
                (fun m =>
                   let id := TrimSpace (EntryID m) in
                   if isEmpty id then []
                   else
                     let name := TrimSpace (EntryDisplayName m) in
                     let name := if isEmpty name then id else name in
                     [{| ID := id; DisplayName := name |}])
                (Data resp) in
            ret (Ok (sortSlice lessID models))
        end
    end.

Definition messagesPayload (reqBody : AskRequest) : JSON :=
  JObject
    [ ("model", JString (ReqModel reqBody));
      ("max_tokens", JNumber 2048 0);
      ("system", JString (Prompt reqBody));
      ("messages",
       JArray
         [ JObject
             [ ("role", JString "user");
               ("content",
                JArray [ JObject [("type", JString "text");
                                  ("text", JString (Question reqBody))] ]) ] ]) ].

Definition Ask (c : client) (reqBody : AskRequest)
  : HTTP (result AskResponse) :=
  match validateAskRequest reqBody with
  | Some e => ret (Err e)
  | None =>
      if isEmpty (apiKey c) then
        ret (Err "ANTHROPIC_API_KEY not configured")
      else
        match NewRequest "POST" (joinURL (base c) "/v1/messages") with
        | Err e => ret (Err ("build request: " ++ e))
        | Ok req =>
            let req := setHeaders c req in
            let resp := {| Content := [] |} in
            r <- doJSON req (Some (messagesPayload reqBody)) (Some resp);;
            match snd r with
            | Some e => ret (Err e)
            | None =>
                let resp := deref resp (fst r) in
                let parts :=
                  collect
                    (fun b =>
                       if String.eqb (BlockType b) "text"
                          && negb (isEmpty (TrimSpace (BlockText b)))
                       then [BlockText b] else [])
                    (Content resp) in
                match parts with
                | [] => ret (Err "no text content returned by Anthropic")
                | _ => ret (Ok {| Text := Join parts nl |})
                end
            end
        end
  end.
End Client.
End Anthropic.

(** ** gemini.go *)

(** [supportsGenerateContent(methods)]. *)
Fixpoint supportsGenerateContent (methods : list string) : bool :=
  match methods with
  | [] => false
  | method :: rest =>
      if EqualFold (TrimSpace method) "generateContent" then true
      else supportsGenerateContent rest
  end.

Module Gemini.

Record client := {
  apiKey : string;
  base : string;
  headers : list (string * string)
}.

(** [{models: [{name, displayName, supportedGenerationMethods}]}] and
    [{candidates: [{content: {parts: [{text}]}}]}]. *)
Record modelsEntry := {
  EntryName : string;
  EntryDisplayName : string;
  SupportedGenerationMethods : list string
}.
Record modelsResponse := { Models : list modelsEntry }.
Record part := { PartText : string }.
Record content := { Parts : list part }.
Record candidate := { Content : content }.
Record generateResponse := { Candidates : list candidate }.

Section Client.
Context {P : Platform}.
Context {decodeModels : JSONTarget modelsResponse}.
Context {decodeGenerate : JSONTarget generateResponse}.

Definition setHeaders (c : client) (req : Request) : Request :=
  let h := Header_Set "x-goog-api-key" (apiKey c) (Hdr req) in
  withHeader req (setStaticHeaders (headers c) h).

(** The body of the loop of [ListModels]: what one catalog entry
    contributes to the list. *)
Definition listStep (m : modelsEntry) : list Model :=
  if negb (supportsGenerateContent (SupportedGenerationMethods m)) then []
  else
    let id := TrimPrefix (TrimSpace (EntryName m)) "models/" in
    if isEmpty id then []
    else
      let display := TrimSpace (EntryDisplayName m) in
      let display := if isEmpty display then id else display in
      [{| ID := id; DisplayName := display |}].

Definition ListModels (c : client) : HTTP (result (list Model)) :=
  if isEmpty (apiKey c) then ret (Err "GEMINI_API_KEY not configured")
  else
    match NewRequest "GET" (joinURL (base c) "/models") with
    | Err e => ret (Err ("build request: " ++ e))
    | Ok req =>
        let req := setHeaders c req in
        let resp := {| Models := [] |} in
        r <- doJSON req None (Some resp);;
        match snd r with
        | Some e => ret (Err e)
        | None =>
            let resp := deref resp (fst r) in
            ret (Ok (sortSlice lessID (collect listStep (Models resp))))
        end
    end.

Definition systemInstruction (reqBody : AskRequest) : JSON :=
  JObject [("parts", JArray [JObject [("text", JString (Prompt reqBody))]])].

Definition contents (reqBody : AskRequest) : JSON :=
  JArray
    [ JObject
        [ ("role", JString "user");
          ("parts",
           JArray [JObject [("text", JString (Question reqBody))]]) ] ].

(** The payload of the first attempt ([withFormat] is [ExpectJSON]) and
    of the retry ([withFormat] is [false]). *)
Definition generatePayload (reqBody : AskRequest) (withFormat : bool)
  : JSON :=
  let generationConfig := [("temperature", JNumber 2 (-1))] in
  JObject
    [ ("systemInstruction", systemInstruction reqBody);
      ("contents", contents reqBody);
      ("generationConfig",
       JObject
         (if withFormat
          then (generationConfig
                ++ [("responseMimeType", JString "application/json")])%list
          else generationConfig)) ].

(** The end of [Ask], once [resp] is decoded. *)
Definition textOf (resp : generateResponse) : result AskResponse :=
  match Candidates resp with
  | [] => Err "no candidates returned by Gemini"
  | first :: _ =>
      let parts :=
        collect
          (fun p =>
             if negb (isEmpty (TrimSpace (PartText p)))
             then [PartText p] else [])
          (Parts (Content first)) in
      match parts with
      | [] => Err "Gemini response had no text parts"
      | _ => Ok {| Text := Join parts nl |}
      end
  end.

Definition Ask (c : client) (reqBody : AskRequest)
  : HTTP (result AskResponse) :=
  match validateAskRequest reqBody with
  | Some e => ret (Err e)
  | None =>
      if isEmpty (apiKey c) then ret (Err "GEMINI_API_KEY not configured")
      else
        let model := TrimSpace (ReqModel reqBody) in
        let model := TrimPrefix model "models/" in
        if isEmpty model then ret (Err "model is required")
        else
          let path := "/models/" ++ model ++ ":generateContent" in
          match NewRequest "POST" (joinURL (base c) path) with
          | Err e => ret (Err ("build request: " ++ e))
          | Ok req =>
              let req := setHeaders c req in
              let payload := generatePayload reqBody (ExpectJSON reqBody) in
              let resp := {| Candidates := [] |} in
              r <- doJSON req (Some payload) (Some resp);;
              let resp := deref resp (fst r) in
              match snd r with
              | Some e =>
                  if ExpectJSON reqBody
                     && responseFormatLikelyUnsupported (snd r)
                  then
                    let payloadNoFormat := generatePayload reqBody false in
                    match NewRequest "POST" (joinURL (base c) path) with
                    | Err e' => ret (Err ("build retry request: " ++ e'))
                    | Ok retryReq =>
                        let retryReq := setHeaders c retryReq in
                        r' <- doJSON retryReq (Some payloadNoFormat)
                                     (Some resp);;
                        match snd r' with
                        | Some retryErr => ret (Err retryErr)
                        | None => ret (textOf (deref resp (fst r')))
                        end
                    end
                  else ret (Err e)
              | None => ret (textOf resp)
              end
          end
  end.
End Client.
End Gemini.

(** ** providers.go, openai.go, openrouter.go: the registry *)

(** [strings.IndexByte(s, c)] ([strings.Index] and [strings.IndexRune] for
    a target of one ASCII byte); [None] stands for -1. *)
Fixpoint indexByte (c : ascii) (s : string) : option nat :=
  match s with
  | EmptyString => None
  | String c' t =>
      if Ascii.eqb c' c then Some 0
      else match indexByte c t with
           | Some i => Some (S i)
           | None => None
           end
  end.

(** The implementations of the interface [Client]. *)
Inductive Client : Type :=
| OpenAICompatibleClient (c : OpenAICompatible.client)
| AnthropicClient (c : Anthropic.client)
| GeminiClient (c : Gemini.client)
| OllamaClient (c : Ollama.client).

Section Registry.
Context {P : Platform}.

(** [strconv.Quote], which formats the [%q] of an error message. *)
Variable Quote : string -> string.

Definition newOpenAIClient (opts : ClientOptions) : Client :=
let opts :=
  if String.eqb (BaseURL opts) ""
  then {| APIKey := APIKey opts; BaseURL := "https://api.openai.com/v1";
          Headers := Headers opts |}
  else opts in
OpenAICompatibleClient
  (OpenAICompatible.newOpenAICompatibleClient
     {| Name := "openai"; ModelsPath := ""; ChatPath := "";
        AuthHeader := ""; AuthPrefix := ""; RequireAPIKey := true |} opts).

Definition newOpenRouterClient (opts : ClientOptions) : Client :=
let opts :=
  if String.eqb (BaseURL opts) ""
  then {| APIKey := APIKey opts; BaseURL := "https://openrouter.ai/api/v1";
          Headers := Headers opts |}
  else opts in
OpenAICompatibleClient
  (OpenAICompatible.newOpenAICompatibleClient
     {| Name := "openrouter"; ModelsPath := ""; ChatPath := "";
        AuthHeader := ""; AuthPrefix := ""; RequireAPIKey := true |} opts).

Definition newAnthropicClient (opts : ClientOptions) : Client :=
let base :=
  if isEmpty (TrimSpace (BaseURL opts)) then "https://api.anthropic.com"
  else BaseURL opts in
AnthropicClient
  {| Anthropic.apiKey := TrimSpace (APIKey opts);
     Anthropic.base := TrimRightByte (TrimSpace base) "/";
     Anthropic.headers := Headers opts |}.

Definition newGeminiClient (opts : ClientOptions) : Client :=
let base :=
  if isEmpty (TrimSpace (BaseURL opts))
  then "https://generativelanguage.googleapis.com/v1beta"
  else BaseURL opts in
GeminiClient
  {| Gemini.apiKey := TrimSpace (APIKey opts);
     Gemini.base := TrimRightByte (TrimSpace base) "/";
     Gemini.headers := Headers opts |}.

Definition newOllamaClient (opts : ClientOptions) : Client :=
let base :=
  if isEmpty (TrimSpace (BaseURL opts)) then "http://127.0.0.1:11434"
  else BaseURL opts in
OllamaClient {| Ollama.base := TrimRightByte (TrimSpace base) "/" |}.

(** [New(name, opts)]. *)
Definition New (name : string) (opts : ClientOptions) : result Client :=
let name := normalize name in
if String.eqb name "" then Err "provider name is required"
else if String.eqb name "openai" then Ok (newOpenAIClient opts)
else if String.eqb name "anthropic" then Ok (newAnthropicClient opts)
else if String.eqb name "gemini" then Ok (newGeminiClient opts)
else if String.eqb name "ollama" then Ok (newOllamaClient opts)
else if String.eqb name "openrouter" then Ok (newOpenRouterClient opts)
else Err ("unsupported provider " ++ Quote name).

(** [NewOpenAICompatible(settings, opts)]. *)
Definition NewOpenAICompatible (settings : OpenAICompatibleSettings)
  (opts : ClientOptions) : result Client :=
let settings :=
  {| Name := normalize (Name settings);
     ModelsPath := ModelsPath settings; ChatPath := ChatPath settings;
     AuthHeader := AuthHeader settings; AuthPrefix := AuthPrefix settings;
     RequireAPIKey := RequireAPIKey settings |} in
if String.eqb (Name settings) "" then Err "provider name is required"
else if isEmpty (TrimSpace (BaseURL opts)) then Err "base URL is required"
else Ok (OpenAICompatibleClient
           (OpenAICompatible.newOpenAICompatibleClient settings opts)).

(** [SupportedProviders()]; [sort.Strings] is modelled as [sort.Slice]. *)
Definition SupportedProviders : list string :=
sortSlice String.ltb
  ["anthropic"; "gemini"; "ollama"; "openai"; "openrouter"].

(** The method [Name] of the interface. *)
Definition Client_Name (c : Client) : string :=
match c with
| OpenAICompatibleClient c => OpenAICompatible.name c
| AnthropicClient _ => "anthropic"
| GeminiClient _ => "gemini"
| OllamaClient _ => "ollama"
end.
End Registry.

(** ** assistant/response.go *)

Module Assistant.

(** [Response], the payload that the CLI consumes. *)
Record Response := { Answer : string; Command : string }.

(** The loop of [firstJSONObject] over what is left of the text, in the
  state [depth], [inString], [escaped]: the number of bytes up to and
  with the brace that brings [depth] back to zero. *)
Fixpoint scanObject (s : string) (depth : Z) (inString escaped : bool)
: option nat :=
match s with
| EmptyString => None
| String ch rest =>
    if inString then
      if escaped then option_map S (scanObject rest depth true false)
      else if Ascii.eqb ch "\" then
        option_map S (scanObject rest depth true true)
      else if Ascii.eqb ch "034" then
        option_map S (scanObject rest depth false escaped)
      else option_map S (scanObject rest depth true escaped)
    else if Ascii.eqb ch "034" then
      option_map S (scanObject rest depth true escaped)
    else if Ascii.eqb ch "{" then
      option_map S (scanObject rest (depth + 1) false escaped)
    else if Ascii.eqb ch "}" then
      if (depth - 1 =? 0)%Z then Some 1
      else option_map S (scanObject rest (depth - 1) false escaped)
    else option_map S (scanObject rest depth false escaped)
end.

(** [firstJSONObject(s)]; [None] stands for the result [("", false)]. *)
Definition firstJSONObject (s : string) : option string :=
match indexByte "{" s with
| None => None
| Some start =>
    match scanObject (drop start s) 0 false false with
    | Some len => Some (take len (drop start s))
    | None => None
    end
end.

(** [(r *Response).normalize()]. *)
Definition normalize (r : Response) : Response :=
{| Answer := TrimSpace (Answer r); Command := TrimSpace (Command r) |}.

(** [(r Response).HasCommand()]. *)
Definition HasCommand (r : Response) : bool :=
negb (isEmpty (TrimSpace (Command r))).

Section Parse.
Context {decodeResponse : JSONTarget Response}.

(** [Parse(text)]. *)
Definition Parse (text : string) : result Response :=
let candidate := TrimSpace text in
if isEmpty candidate then Err "empty model response"
else
let parsed := {| Answer := ""; Command := "" |} in
match unmarshal candidate parsed with
| (parsed, None) => Ok (normalize parsed)
| (parsed, Some _) =>
    match firstJSONObject candidate with
    | None => Err "model response is not valid JSON"
    | Some fragment =>
        match unmarshal fragment parsed with
        | (_, Some e) => Err ("decode model JSON response: " ++ e)
        | (parsed, None) => Ok (normalize parsed)
        end
    end
end.
End Parse.
End Assistant.

(** ** cli helpers (help_helpers.go) *)

Section CLI.
Context {P : Platform}.

(** [parseKV(input)]. *)
Definition parseKV (input : string) : result (string * string) :=
match indexByte "=" input with
| None => Err "expected key=value"
| Some idx =>
    if (idx =? 0)%nat || (S idx =? String.length input)%nat
    then Err "expected key=value"
    else
      let k := TrimSpace (take idx input) in
      let v := TrimSpace (drop (S idx) input) in
      if isEmpty k || isEmpty v then Err "expected key=value"
      else Ok (k, v)
end.

(** The search of [selectDefaultModel] for one token. *)
Fixpoint firstWithToken (token : string) (models : list Model)
: option string :=
match models with
| [] => None
| m :: rest =>
    if Contains (ToLower (ID m)) token then Some (ID m)
    else firstWithToken token rest
end.

Fixpoint firstPreferred (preferred : list string) (models : list Model)
: option string :=
match preferred with
| [] => None
| token :: rest =>
    match firstWithToken token models with
    | Some id => Some id
    | None => firstPreferred rest models
    end
end.

(** [selectDefaultModel(models)]. *)
Definition selectDefaultModel (models : list Model) : string :=
match models with
| [] => ""
| _ =>
    match firstPreferred ["mini"; "flash"; "haiku"; "small"; "8b"] models
    with
    | Some id => id
    | None =>
        match sortSlice lessID models with
        | first :: _ => ID first
        | [] => ""
        end
    end
end.
End CLI.

(** ** Notions used by the properties *)

(** [a] comes no later than [b] in the order of [ListModels]. *)
Definition leID (a b : Model) : Prop := String.leb (ID a) (ID b) = true.

(** The fragments of a content list in the words of the specification:
    the [text] of every object whose [text] is a string that is not empty
    once trimmed, in the order of the list. *)
Definition textFragments (items : list JSON) : list string :=
  flat_map
    (fun item =>
       match item with
       | JObject obj =>
           match lookup "text" obj with
           | Some (JString t) => if isEmpty (TrimSpace t) then [] else [t]
           | _ => []
           end
       | _ => []
       end)
    items.

(** The text blocks of an Anthropic reply and the text parts of a Gemini
    candidate in the words of the specification: the texts, as they were
    received, of the blocks of type text, respectively of the parts, that
    hold more than white space, in the order of the reply. *)
Definition textBlocks (blocks : list Anthropic.block) : list string :=
  map Anthropic.BlockText
    (filter
       (fun b => String.eqb (Anthropic.BlockType b) "text"
                 && negb (isEmpty (TrimSpace (Anthropic.BlockText b))))
       blocks).

Definition textParts (parts : list Gemini.part) : list string :=
  map Gemini.PartText
    (filter (fun p => negb (isEmpty (TrimSpace (Gemini.PartText p)))) parts).

(** ** A scripted network

    The examples run the adapters against a server that answers from a
    script, one reply per request, and against decoders given by the
    table of the bodies that the script contains. *)
Module Scenario.

(** [strings.ToLower] on ASCII text, to which the examples keep. *)
Fixpoint asciiLower (s : string) : string :=
  match s with
  | EmptyString => EmptyString
  | String c t => String (lowerByte c) (asciiLower t)
  end.

Definition scripted : Platform := {|
  ToLower := asciiLower;
  urlError := fun _ => None;
  ServerState := list RoundTrip;
  serve := fun script _ =>
    match script with
    | [] => (DoFailed "connection refused", [])
    | reply :: rest => (reply, rest)
    end
|}.

Definition start (script : list RoundTrip) : @Net scripted :=
  @Build_Net scripted script [].

Definition reply (code : Z) (status body : string) : RoundTrip :=
  Responded {| StatusCode := code; Status := status; RespBody := body |}.

Definition decodeTable {Out : Type} (table : list (string * Out))
  : JSONTarget Out :=
  fun body out =>
    match lookup body table with
    | Some v => (v, None)
    | None => (out, Some "invalid character")
    end.

(** JSON text: a string literal without escapes, an object, an array. *)
Definition quoted (s : string) : string :=
  String "034" s ++ String "034" "".

Definition object (fields : list (string * string)) : string :=
  "{" ++ Join (map (fun kv => quoted (fst kv) ++ ":" ++ snd kv) fields) ","
  ++ "}".

Definition array (items : list string) : string :=
  "[" ++ Join items "," ++ "]".

(** *** OpenAI-compatible server *)

Definition formatRejected : string :=
  object [("error",
           quoted "Unrecognized request argument supplied: response_format")].

Definition chatReply : string :=
  object [("choices",
           array [object [("message", object [("content", quoted "ok")])]])].

Definition openaiChat : JSONTarget OpenAICompatible.chatResponse :=
  decodeTable
    [(chatReply,
      {| OpenAICompatible.Choices :=
           [{| OpenAICompatible.Message :=
                 {| OpenAICompatible.Content := JString "ok" |} |}] |})].

Definition openaiCatalog : string :=
  object [("data",
           array [object [("id", quoted "gpt-b")];
                  object [("id", quoted " ")];
                  object [("id", quoted "gpt-a")]])].

Definition openaiModels : JSONTarget OpenAICompatible.modelsResponse :=
  decodeTable
    [(openaiCatalog,
      {| OpenAICompatible.Data :=
           [{| OpenAICompatible.EntryID := "gpt-b" |};
            {| OpenAICompatible.EntryID := " " |};
            {| OpenAICompatible.EntryID := "gpt-a" |}] |})].

Definition openaiClient : OpenAICompatible.client :=
  @OpenAICompatible.newOpenAICompatibleClient scripted
    {| Name := "OpenAI"; ModelsPath := ""; ChatPath := "";
       AuthHeader := ""; AuthPrefix := ""; RequireAPIKey := true |}
    {| APIKey := "sk-test"; BaseURL := "https://api.openai.com/v1/";
       Headers := [] |}.

(** A custom provider that needs no key and has a static header. *)
Definition customSettings : OpenAICompatibleSettings :=
  {| Name := "myproxy"; ModelsPath := ""; ChatPath := "/chat/completions";
     AuthHeader := ""; AuthPrefix := ""; RequireAPIKey := false |}.

Definition customOptions : ClientOptions :=
  {| APIKey := "unused-key"; BaseURL := "https://llm.example.com/v1";
     Headers := [("authorization", "Bearer static-token")] |}.

Definition customClient : OpenAICompatible.client :=
  @OpenAICompatible.newOpenAICompatibleClient scripted
    customSettings customOptions.

(** *** Anthropic server *)

Definition anthropicModels : JSONTarget Anthropic.modelsResponse :=
  decodeTable [].

Definition messagesReply : string :=
  object [("content",
           array [object [("type", quoted "text"); ("text", quoted "ok")]])].

Definition anthropicMessages : JSONTarget Anthropic.messagesResponse :=
  decodeTable
    [(messagesReply,
      {| Anthropic.Content :=
           [{| Anthropic.BlockType := "text";
               Anthropic.BlockText := "ok" |}] |})].

(** *** Gemini server *)

Definition geminiCatalog : string :=
  object
    [("models",
      array
        [object [("name", quoted "models/");
                 ("displayName", quoted "Nameless");
                 ("supportedGenerationMethods",
                  array [quoted "generateContent"])];
         object [("name", quoted "models/gemini-2.0-flash");
                 ("displayName", quoted "Gemini 2.0 Flash");
                 ("supportedGenerationMethods",
                  array [quoted "generateContent"])];
         object [("name", quoted "models/text-embedding-004");
                 ("displayName", quoted "Text Embedding");
                 ("supportedGenerationMethods",
                  array [quoted "embedContent"])]])].

Definition nameless : Gemini.modelsEntry :=
  {| Gemini.EntryName := "models/";
     Gemini.EntryDisplayName := "Nameless";
     Gemini.SupportedGenerationMethods := ["generateContent"] |}.

Definition geminiModels : JSONTarget Gemini.modelsResponse :=
  decodeTable
    [(geminiCatalog,
      {| Gemini.Models :=
           [nameless;
            {| Gemini.EntryName := "models/gemini-2.0-flash";
               Gemini.EntryDisplayName := "Gemini 2.0 Flash";
               Gemini.SupportedGenerationMethods := ["generateContent"] |};
            {| Gemini.EntryName := "models/text-embedding-004";
               Gemini.EntryDisplayName := "Text Embedding";
               Gemini.SupportedGenerationMethods := ["embedContent"] |}] |})].

Definition generateReply : string :=
  object
    [("candidates",
      array [object [("content",
                      object [("parts",
                               array [object [("text", quoted "ok")]])])]])].

Definition geminiGenerate : JSONTarget Gemini.generateResponse :=
  decodeTable
    [(generateReply,
      {| Gemini.Candidates :=
           [{| Gemini.Content :=
                 {| Gemini.Parts := [{| Gemini.PartText := "ok" |}] |} |}] |})].

Definition geminiClient : Gemini.client :=
  {| Gemini.apiKey := "g-test";
     Gemini.base := "https://generativelanguage.googleapis.com/v1beta";
     Gemini.headers := [] |}.

Definition geminiWithoutKey : Gemini.client :=
  {| Gemini.apiKey := "";
     Gemini.base := "https://generativelanguage.googleapis.com/v1beta";
     Gemini.headers := [] |}.

(** *** Ollama server *)

Definition ollamaTags : JSONTarget Ollama.tagsResponse := decodeTable [].

Definition ollamaReply : string :=
  object [("message", object [("content", quoted " hi ")])].

Definition ollamaChat : JSONTarget Ollama.chatResponse :=
  decodeTable
    [(ollamaReply,
      {| Ollama.Message := {| Ollama.Content := " hi " |} |})].

Definition ollamaClient : Ollama.client :=
  {| Ollama.base := "http://127.0.0.1:11434" |}.

Definition blankReply : string :=
  object [("choices",
           array [object [("message", object [("content", quoted " ")])]])].

Definition openaiBlankChat : JSONTarget OpenAICompatible.chatResponse :=
  decodeTable
    [(blankReply,
      {| OpenAICompatible.Choices :=
           [{| OpenAICompatible.Message :=
                 {| OpenAICompatible.Content := JString " " |} |}] |})].

(** *** Requests *)

Definition question (model : string) (json : bool) : AskRequest :=
  {| ReqModel := model; Prompt := "system"; Question := "q";
     ExpectJSON := json |}.
End Scenario.

Unset Implicit Arguments.

(** * Properties *)

(** ** Byte strings *)

Lemma append_nil_r (s : string) : s ++ "" = s.
Proof. induction s as [|c t IH]; simpl; congruence. Qed.

Lemma append_assoc (a b c : string) : (a ++ b) ++ c = a ++ b ++ c.
Proof. induction a as [|x t IH]; simpl; congruence. Qed.

Lemma length_append (a b : string) :
  String.length (a ++ b) = String.length a + String.length b.
Proof. induction a as [|x t IH]; simpl; congruence. Qed.

Lemma append_eq_nil (a b : string) : a ++ b = "" -> a = "" /\ b = "".
Proof. destruct a; simpl; [auto | discriminate]. Qed.

Lemma rev_append (a b : string) : rev (a ++ b) = rev b ++ rev a.
Proof.
  induction a as [|x t IH]; simpl.
  - now rewrite append_nil_r.
  - now rewrite IH, append_assoc.
Qed.

Lemma rev_involutive (s : string) : rev (rev s) = s.
Proof.
  induction s as [|x t IH]; simpl; [reflexivity|].
  now rewrite rev_append, IH.
Qed.

Lemma length_rev (s : string) : String.length (rev s) = String.length s.
Proof.
  induction s as [|x t IH]; simpl; [reflexivity|].
  rewrite length_append, IH; simpl; lia.
Qed.

Lemma isEmpty_true (s : string) : isEmpty s = true <-> s = "".
Proof. destruct s; simpl; split; congruence. Qed.

Lemma isEmpty_false (s : string) : isEmpty s = false <-> s <> "".
Proof. destruct s; simpl; split; congruence. Qed.

(** Induction on the length of a byte string. *)
Lemma string_length_ind (Q : string -> Prop) :
  (forall s, (forall t, String.length t < String.length s -> Q t) -> Q s) ->
  forall s, Q s.
Proof.
  intros step s.
  remember (String.length s) as k eqn:Hk.
  revert s Hk.
  induction k as [k IH] using lt_wf_ind.
  intros s ->. apply step. intros t Ht. now apply (IH (String.length t)).
Qed.

Section TrimHeadFacts.
Variable p1 : ascii -> bool.
Variable p2 : ascii -> ascii -> bool.
Variable p3 : ascii -> ascii -> ascii -> bool.

Local Abbreviation trim := (trimHead p1 p2 p3).

(** What is trimmed is a prefix: the result is a suffix of the input. *)
Lemma trimHead_suffix (s : string) : exists x, s = x ++ trim s.
Proof.
  induction s as [s IH] using string_length_ind.
  destruct s as [|c1 r1]; [now exists ""|]. simpl.
  destruct (p1 c1).
  { destruct (IH r1) as [x Hx]; [simpl; lia|].
    exists (String c1 x). simpl. now rewrite <- Hx. }
  destruct r1 as [|c2 r2]; [now exists ""|].
  destruct (p2 c1 c2).
  { destruct (IH r2) as [x Hx]; [simpl; lia|].
    exists (String c1 (String c2 x)). simpl. now rewrite <- Hx. }
  destruct r2 as [|c3 r3]; [now exists ""|].
  destruct (p3 c1 c2 c3); [|now exists ""].
  destruct (IH r3) as [x Hx]; [simpl; lia|].
  exists (String c1 (String c2 (String c3 x))). simpl. now rewrite <- Hx.
Qed.

Lemma trimHead_length (s : string) :
  String.length (trim s) <= String.length s.
Proof.
  destruct (trimHead_suffix s) as [x Hx].
  rewrite Hx at 2. rewrite length_append. lia.
Qed.

Lemma trimHead_idempotent (s : string) : trim (trim s) = trim s.
Proof.
  induction s as [s IH] using string_length_ind.
  destruct s as [|c1 r1]; [reflexivity|]. simpl.
  destruct (p1 c1) eqn:E1; [apply IH; simpl; lia|].
  destruct r1 as [|c2 r2]; [simpl; now rewrite E1|].
  destruct (p2 c1 c2) eqn:E2; [apply IH; simpl; lia|].
  destruct r2 as [|c3 r3]; [simpl; now rewrite E1, E2|].
  destruct (p3 c1 c2 c3) eqn:E3; [apply IH; simpl; lia|].
  simpl; now rewrite E1, E2, E3.
Qed.

(** A string with no rune to trim at its head has no prefix with one. *)
Lemma trimHead_fixed_prefix (v y : string) :
  trim (v ++ y) = v ++ y -> trim v = v.
Proof.
  assert (L : forall z w : string,
             trim z = w -> String.length z < String.length w -> False).
  { intros z w <- Hl. pose proof (trimHead_length z). lia. }
  intro H.
  destruct v as [|c1 r1]; [reflexivity|]. simpl in *.
  destruct (p1 c1) eqn:E1.
  { exfalso. eapply L; [exact H|]. simpl. lia. }
  destruct r1 as [|c2 r2]; [reflexivity|]. simpl in *.
  destruct (p2 c1 c2) eqn:E2.
  { exfalso. eapply L; [exact H|]. simpl. lia. }
  destruct r2 as [|c3 r3]; [reflexivity|]. simpl in *.
  destruct (p3 c1 c2 c3) eqn:E3; [|reflexivity].
  exfalso. eapply L; [exact H|]. simpl. lia.
Qed.
End TrimHeadFacts.

Lemma TrimRightSpace_prefix (s : string) : exists x, s = TrimRightSpace s ++ x.
Proof.
  unfold TrimRightSpace.
  destruct (trimHead_suffix isSpace1 (fun c c' => isSpace2 c' c)
              (fun c c' c'' => isSpace3 c'' c' c) (rev s)) as [x Hx].
  exists (rev x).
  rewrite <- rev_append, <- Hx. now rewrite rev_involutive.
Qed.

Lemma TrimRightSpace_idempotent (s : string) :
  TrimRightSpace (TrimRightSpace s) = TrimRightSpace s.
Proof.
  unfold TrimRightSpace. now rewrite rev_involutive, trimHead_idempotent.
Qed.

(** The result of [strings.TrimSpace] has no white space left to trim. *)
Lemma TrimSpace_idempotent (s : string) : TrimSpace (TrimSpace s) = TrimSpace s.
Proof.
  unfold TrimSpace.
  assert (H : TrimLeftSpace (TrimRightSpace (TrimLeftSpace s))
              = TrimRightSpace (TrimLeftSpace s)).
  { destruct (TrimRightSpace_prefix (TrimLeftSpace s)) as [x Hx].
    unfold TrimLeftSpace at 1.
    apply trimHead_fixed_prefix with (y := x).
    rewrite <- Hx. apply trimHead_idempotent. }
  rewrite H. apply TrimRightSpace_idempotent.
Qed.

(** *** White space and byte values *)

Ltac by_codes :=
  repeat match goal with
         | |- context [N.eqb ?a ?b] => destruct (N.eqb_spec a b)
         | |- context [N.leb ?a ?b] => destruct (N.leb_spec a b)
         end;
  simpl; intros; try reflexivity; try discriminate; try congruence; lia.

Lemma isSpace1_high (c : ascii) : (0x80 <= code c)%N -> isSpace1 c = false.
Proof. intro H. unfold isSpace1. by_codes. Qed.

Lemma isSpace2_low_l (c1 c2 : ascii) : (code c1 < 0x80)%N -> isSpace2 c1 c2 = false.
Proof. intro H. unfold isSpace2. by_codes. Qed.

Lemma isSpace2_low_r (c1 c2 : ascii) : (code c2 < 0x80)%N -> isSpace2 c1 c2 = false.
Proof. intro H. unfold isSpace2. by_codes. Qed.

Lemma isSpace3_low_l (c1 c2 c3 : ascii) :
  (code c1 < 0x80)%N -> isSpace3 c1 c2 c3 = false.
Proof. intro H. unfold isSpace3. by_codes. Qed.

Lemma isSpace3_low_m (c1 c2 c3 : ascii) :
  (code c2 < 0x80)%N -> isSpace3 c1 c2 c3 = false.
Proof. intro H. unfold isSpace3. by_codes. Qed.

Lemma isSpace3_low_r (c1 c2 c3 : ascii) :
  (code c3 < 0x80)%N -> isSpace3 c1 c2 c3 = false.
Proof. intro H. unfold isSpace3. by_codes. Qed.

(** An ASCII byte that is no space stays at the left end ... *)
Lemma TrimLeftSpace_keep (c : ascii) (r : string) :
  (code c < 0x80)%N -> isSpace1 c = false ->
  TrimLeftSpace (String c r) = String c r.
Proof.
  intros Hc H1. unfold TrimLeftSpace. simpl. rewrite H1.
  destruct r as [|c2 r2]; [reflexivity|].
  rewrite isSpace2_low_l by assumption.
  destruct r2 as [|c3 r3]; [reflexivity|].
  now rewrite isSpace3_low_l.
Qed.

(** ... and at the right end. *)
Lemma TrimRightSpace_keep (c : ascii) (r : string) :
  (code c < 0x80)%N -> isSpace1 c = false ->
  TrimRightSpace (r ++ String c "") = r ++ String c "".
Proof.
  intros Hc H1. unfold TrimRightSpace.
  rewrite rev_append. simpl. rewrite H1.
  assert (E : rev (String c (rev r)) = r ++ String c "")
    by (simpl; now rewrite rev_involutive).
  destruct (rev r) as [|c2 r2]; [exact E|].
  rewrite isSpace2_low_r by assumption.
  destruct r2 as [|c3 r3]; [exact E|].
  rewrite isSpace3_low_r by assumption. exact E.
Qed.

Lemma TrimSpace_keep (a b : ascii) (m : string) :
  (code a < 0x80)%N -> isSpace1 a = false ->
  (code b < 0x80)%N -> isSpace1 b = false ->
  TrimSpace (String a (m ++ String b "")) = String a (m ++ String b "").
Proof.
  intros. unfold TrimSpace. rewrite TrimLeftSpace_keep by assumption.
  change (String a (m ++ String b "")) with (String a m ++ String b "").
  now apply TrimRightSpace_keep.
Qed.

(** A string that is white space when read from the right is white space
    when read from the left. *)
Lemma TrimRightSpace_empty (u : string) :
  TrimRightSpace u = "" -> TrimLeftSpace u = "".
Proof.
  unfold TrimRightSpace. intro H.
  assert (H' : trimHead isSpace1 (fun c c' => isSpace2 c' c)
                 (fun c c' c'' => isSpace3 c'' c' c) (rev u) = "").
  { rewrite <- (rev_involutive (trimHead _ _ _ _)), H. reflexivity. }
  clear H. rewrite <- (rev_involutive u) at 1.
  revert H'. generalize (rev u) as t. clear u.
  induction t as [t IH] using string_length_ind.
  destruct t as [|c1 r1]; [reflexivity|]. simpl.
  assert (G : forall (r w : string),
             String.length r < String.length (String c1 r1) ->
             trimHead isSpace1 (fun c c' => isSpace2 c' c)
               (fun c c' c'' => isSpace3 c'' c' c) r = "" ->
             TrimLeftSpace w = "" ->
             TrimLeftSpace (rev r ++ w) = "").
  { intros r w Hl Hr Hw. specialize (IH r Hl Hr).
    clear Hl Hr. revert IH. generalize (rev r) as v. clear r.
    induction v as [v IHv] using string_length_ind. intro Hv.
    destruct v as [|a1 v1]; [exact Hw|].
    unfold TrimLeftSpace in *. simpl in *.
    destruct (isSpace1 a1); [apply IHv; [simpl; lia | exact Hv]|].
    destruct v1 as [|a2 v2]; [discriminate|]. simpl.
    destruct (isSpace2 a1 a2); [apply IHv; [simpl; lia | exact Hv]|].
    destruct v2 as [|a3 v3]; [discriminate|]. simpl.
    destruct (isSpace3 a1 a2 a3); [apply IHv; [simpl; lia | exact Hv]|].
    discriminate. }
  destruct (isSpace1 c1) eqn:E1.
  { intro H. apply G; [simpl; lia | exact H |].
    unfold TrimLeftSpace. simpl. now rewrite E1. }
  destruct r1 as [|c2 r2]; [discriminate|].
  destruct (isSpace2 c2 c1) eqn:E2.
  { intro H. simpl. rewrite append_assoc. apply G; [simpl; lia | exact H |].
    unfold TrimLeftSpace. simpl.
    destruct (isSpace1 c2) eqn:F1; [|now rewrite E2].
    exfalso. revert E2 F1. unfold isSpace2, isSpace1. by_codes. }
  destruct r2 as [|c3 r3]; [discriminate|].
  destruct (isSpace3 c3 c2 c1) eqn:E3; [|discriminate].
  intro H. simpl. rewrite !append_assoc. apply G; [simpl; lia | exact H |].
  unfold TrimLeftSpace. simpl.
  destruct (isSpace1 c3) eqn:F1.
  - assert (Hc : (0x80 <= code c2)%N).
    { destruct (N.lt_ge_cases (code c2) 0x80) as [L|L]; [|exact L].
      rewrite isSpace3_low_m in E3 by exact L. discriminate. }
    rewrite (isSpace1_high _ Hc).
    assert (Hc1 : (0x80 <= code c1)%N).
    { destruct (N.lt_ge_cases (code c1) 0x80) as [L|L]; [|exact L].
      rewrite isSpace3_low_r in E3 by exact L. discriminate. }
    destruct (N.lt_ge_cases (code c3) 0x80) as [L|L].
    + rewrite isSpace3_low_l in E3 by exact L. discriminate.
    + rewrite (isSpace1_high _ L) in F1. discriminate.
  - destruct (isSpace2 c3 c2) eqn:F2.
    + exfalso. revert E3 F2. unfold isSpace3, isSpace2. by_codes.
    + now rewrite E3.
Qed.

Lemma TrimSpace_empty_iff (s : string) :
  TrimSpace s = "" <-> TrimLeftSpace s = "".
Proof.
  unfold TrimSpace. split; intro H.
  - apply TrimRightSpace_empty in H.
    unfold TrimLeftSpace in *. now rewrite trimHead_idempotent in H.
  - now rewrite H.
Qed.

Lemma TrimSpace_nonempty (s : string) : TrimSpace s <> "" -> s <> "".
Proof. intros H ->. now apply H. Qed.

(** A line feed splits white space into white space. *)
Lemma TrimLeftSpace_split_nl (x y : string) :
  TrimLeftSpace (x ++ nl ++ y) = "" ->
  TrimLeftSpace x = "" /\ TrimLeftSpace y = "".
Proof.
  assert (Hnl : (code "010" < 0x80)%N) by (vm_compute; reflexivity).
  unfold TrimLeftSpace.
  induction x as [x IH] using string_length_ind.
  destruct x as [|c1 r1]; [simpl; auto|]. simpl.
  destruct (isSpace1 c1) eqn:E1; [apply IH; simpl; lia|].
  destruct r1 as [|c2 r2]; simpl.
  { rewrite isSpace2_low_r by exact Hnl.
    destruct y as [|c3 r3]; [discriminate|].
    rewrite isSpace3_low_m by exact Hnl. discriminate. }
  destruct (isSpace2 c1 c2) eqn:E2; [apply IH; simpl; lia|].
  destruct r2 as [|c3 r3]; simpl.
  { rewrite isSpace3_low_r by exact Hnl. discriminate. }
  destruct (isSpace3 c1 c2 c3) eqn:E3; [apply IH; simpl; lia|].
  discriminate.
Qed.

Lemma Join_cons (p : string) (ps : list string) :
  Join (p :: ps) nl = match ps with [] => p | _ => p ++ nl ++ Join ps nl end.
Proof. destruct ps; reflexivity. Qed.

Lemma Join_all_space (parts : list string) :
  TrimLeftSpace (Join parts nl) = "" ->
  Forall (fun p => TrimLeftSpace p = "") parts.
Proof.
  induction parts as [|p ps IH]; intro H; [constructor|].
  rewrite Join_cons in H. destruct ps as [|q qs].
  - constructor; [exact H | constructor].
  - apply TrimLeftSpace_split_nl in H. destruct H as [H1 H2].
    constructor; [exact H1 | now apply IH].
Qed.

(** Fragments with visible text join into a text that is visible. *)
Lemma Join_usable (parts : list string) :
  parts <> [] ->
  Forall (fun p => TrimSpace p <> "") parts ->
  TrimSpace (Join parts nl) <> "".
Proof.
  intros Hne Hall H. apply TrimSpace_empty_iff, Join_all_space in H.
  destruct parts as [|p ps]; [congruence|].
  inversion Hall as [|? ? Hp _]; subst. inversion H as [|? ? Hq _]; subst.
  apply Hp. now apply TrimSpace_empty_iff.
Qed.

(** *** Prefixes *)

Lemma prefix_append (p x : string) : String.prefix p (p ++ x) = true.
Proof.
  induction p as [|c t IH]; simpl; [now destruct x|].
  destruct (ascii_dec c c); [exact IH | congruence].
Qed.

Lemma drop_append (p x : string) : drop (String.length p) (p ++ x) = x.
Proof. induction p as [|c t IH]; simpl; [reflexivity | exact IH]. Qed.

(** The prefix is removed once. *)
Lemma TrimPrefix_append (p x : string) : TrimPrefix (p ++ x) p = x.
Proof.
  unfold TrimPrefix, HasPrefix. now rewrite prefix_append, drop_append.
Qed.

Lemma prefix_inv (p s : string) :
  String.prefix p s = true -> s = p ++ drop (String.length p) s.
Proof.
  revert s. induction p as [|c t IH]; intros s H.
  - reflexivity.
  - destruct s as [|d u]; simpl in H; [discriminate|].
    destruct (ascii_dec c d) as [->|]; [|discriminate].
    simpl. f_equal. now apply IH.
Qed.

(** *** Truncation *)

Lemma length_take (n : nat) (s : string) :
  n <= String.length s -> String.length (take n s) = n.
Proof.
  revert s. induction n as [|n IH]; intros s H; [reflexivity|].
  destruct s as [|c t]; simpl in *; [lia|]. rewrite IH; lia.
Qed.

Lemma take_prefix (n : nat) (s : string) : s = take n s ++ drop n s.
Proof.
  revert s. induction n as [|n IH]; intros s; [reflexivity|].
  destruct s as [|c t]; simpl; [reflexivity|]. now rewrite <- IH.
Qed.

(** ** Lists: the append loops and the sort *)

Lemma collect_flat_map {A B : Type} (step : A -> list B) (xs : list A) :
  collect step xs = flat_map step xs.
Proof.
  unfold collect.
  assert (G : forall acc, fold_left (fun out x => (out ++ step x)%list) xs acc
                          = (acc ++ flat_map step xs)%list).
  { induction xs as [|x t IH]; intro acc; simpl.
    - now rewrite app_nil_r.
    - now rewrite IH, app_assoc. }
  apply G.
Qed.

Lemma insertSorted_perm {A : Type} (less : A -> A -> bool) (x : A) (l : list A) :
  Permutation (insertSorted less x l) (x :: l).
Proof.
  induction l as [|y t IH]; simpl; [reflexivity|].
  destruct (less x y); [reflexivity|].
  rewrite IH. apply perm_swap.
Qed.

Lemma sortSlice_perm {A : Type} (less : A -> A -> bool) (l : list A) :
  Permutation (sortSlice less l) l.
Proof.
  induction l as [|x t IH]; simpl; [reflexivity|].
  rewrite insertSorted_perm. now constructor.
Qed.

(** The order on byte strings. *)
Lemma ascii_compare_trans (a b c : ascii) (r : comparison) :
  Ascii.compare a b = r -> Ascii.compare b c = r -> Ascii.compare a c = r.
Proof.
  unfold Ascii.compare. intros H1 H2. destruct r.
  - apply N.compare_eq_iff in H1. apply N.compare_eq_iff in H2.
    apply N.compare_eq_iff. congruence.
  - apply N.compare_lt_iff in H1. apply N.compare_lt_iff in H2.
    apply N.compare_lt_iff. eapply N.lt_trans; eassumption.
  - apply N.compare_gt_iff in H1. apply N.compare_gt_iff in H2.
    apply N.compare_gt_iff. eapply N.lt_trans; eassumption.
Qed.

Lemma string_compare_lt_trans (a b c : string) :
  String.compare a b = Lt -> String.compare b c = Lt -> String.compare a c = Lt.
Proof.
  revert b c. induction a as [|x a IH]; intros [|y b] [|z c]; simpl;
    try congruence.
  destruct (Ascii.compare x y) eqn:Exy; try discriminate;
    destruct (Ascii.compare y z) eqn:Eyz; try discriminate; intros H1 H2.
  - apply Ascii.compare_eq_iff in Exy, Eyz. subst.
    replace (Ascii.compare z z) with Eq
      by (symmetry; apply N.compare_refl).
    eauto.
  - apply Ascii.compare_eq_iff in Exy. subst. now rewrite Eyz.
  - apply Ascii.compare_eq_iff in Eyz. subst. now rewrite Exy.
  - now rewrite (ascii_compare_trans _ _ _ _ Exy Eyz).
Qed.

Lemma string_leb_trans (a b c : string) :
  String.leb a b = true -> String.leb b c = true -> String.leb a c = true.
Proof.
  unfold String.leb. intros H1 H2.
  destruct (String.compare a b) eqn:Eab; try discriminate;
    destruct (String.compare b c) eqn:Ebc; try discriminate.
  - apply String.compare_eq_iff in Eab. subst. now rewrite Ebc.
  - apply String.compare_eq_iff in Eab. subst. now rewrite Ebc.
  - apply String.compare_eq_iff in Ebc. subst. now rewrite Eab.
  - now rewrite (string_compare_lt_trans _ _ _ Eab Ebc).
Qed.

Lemma lessID_le (a b : Model) : lessID a b = true -> leID a b.
Proof.
  unfold lessID, leID, String.ltb, String.leb.
  destruct (String.compare (ID a) (ID b)); simpl; congruence.
Qed.

Lemma not_lessID_le (a b : Model) : lessID a b = false -> leID b a.
Proof.
  unfold lessID, leID, String.ltb, String.leb.
  rewrite (String.compare_antisym (ID a) (ID b)).
  destruct (String.compare (ID b) (ID a)); simpl; congruence.
Qed.

Lemma insertSorted_sorted (x : Model) (l : list Model) :
  StronglySorted leID l -> StronglySorted leID (insertSorted lessID x l).
Proof.
  induction l as [|y t IH]; intro H; simpl.
  - repeat constructor.
  - inversion H as [|? ? Ht Hy]; subst.
    destruct (lessID x y) eqn:E.
    + constructor; [exact H|].
      constructor; [now apply lessID_le|].
      eapply Forall_impl; [|exact Hy].
      intros z Hz. eapply string_leb_trans; [apply lessID_le; exact E | exact Hz].
    + constructor; [now apply IH|].
      eapply Permutation_Forall.
      * symmetry. apply insertSorted_perm.
      * constructor; [now apply not_lessID_le | exact Hy].
Qed.

Lemma sortSlice_sorted (l : list Model) :
  StronglySorted leID (sortSlice lessID l).
Proof.
  induction l as [|x t IH]; simpl; [constructor|].
  now apply insertSorted_sorted.
Qed.

(** ** Request validation *)

Section Validation.
Context {P : Platform}.
Context {decodeOpenAI : JSONTarget OpenAICompatible.chatResponse}.
Context {decodeAnthropic : JSONTarget Anthropic.messagesResponse}.
Context {decodeGemini : JSONTarget Gemini.generateResponse}.
Context {decodeOllama : JSONTarget Ollama.chatResponse}.

Lemma validateAskRequest_blank (reqBody : AskRequest) :
  TrimSpace (ReqModel reqBody) = "" \/ TrimSpace (Question reqBody) = "" ->
  exists e, validateAskRequest reqBody = Some e
            /\ (e = "model is required" \/ e = "question is required").
Proof.
  unfold validateAskRequest. intros [H|H].
  - rewrite H. simpl. eauto.
  - destruct (isEmpty (TrimSpace (ReqModel reqBody))); [eauto|].
    rewrite H. simpl. eauto.
Qed.

(** C2: an [AskRequest] whose model or question is blank is refused by
    every adapter with a validation error, and the network is left as
    it was: no request is built, none is sent, nothing is retried. *)
Theorem Ask_validates_before_any_request (reqBody : AskRequest) :
  TrimSpace (ReqModel reqBody) = "" \/ TrimSpace (Question reqBody) = "" ->
  exists e,
    (e = "model is required" \/ e = "question is required")
    /\ (forall c n, OpenAICompatible.Ask c reqBody n = (Err e, n))
    /\ (forall c n, Anthropic.Ask c reqBody n = (Err e, n))
    /\ (forall c n, Gemini.Ask c reqBody n = (Err e, n))
    /\ (forall c n, Ollama.Ask c reqBody n = (Err e, n)).
Proof.
  intro H. destruct (validateAskRequest_blank reqBody H) as [e [He Hmsg]].
  exists e. split; [exact Hmsg|].
  repeat split; intros c n.
  - unfold OpenAICompatible.Ask. now rewrite He.
  - unfold Anthropic.Ask. now rewrite He.
  - unfold Gemini.Ask. now rewrite He.
  - unfold Ollama.Ask. now rewrite He.
Qed.
End Validation.

(** ** The transport routine *)

Section DoJSON.
Context {P : Platform}.

Lemma truncate_short (s : string) (max : nat) :
  String.length s <= max -> truncate s max = s.
Proof.
  intro H. unfold truncate.
  now rewrite (proj2 (Nat.leb_le _ _) H).
Qed.

Lemma truncate_long (s : string) (max : nat) :
  max < String.length s ->
  truncate s max = take max s ++ "..."
  /\ String.length (take max s) = max
  /\ s = take max s ++ drop max s.
Proof.
  intro H. unfold truncate.
  rewrite (proj2 (Nat.leb_gt _ _) H).
  repeat split; [apply length_take; lia | apply take_prefix].
Qed.

(** C9: for a response that was read, [doJSON] turns a status of 400
    and above into an error that carries the body cut at 700 bytes (the
    cut is marked with three dots); below 400 a blank body leaves the
    output structure as it is and is no error, and any other body is
    decoded into the output structure. *)
Theorem doJSON_classifies_response
    {Out : Type} {D : JSONTarget Out}
    (req : Request) (payload : option JSON) (out : option Out)
    (n : Net) (resp : Response) (s' : ServerState) :
  serve (server n) (withJSONBody req payload) = (Responded resp, s') ->
  let n' := {| server := s';
               sent := sent n ++ [withJSONBody req payload] |} in
  let body := RespBody resp in
  ((400 <= StatusCode resp)%Z ->
     doJSON req payload out n
     = ((out, Some ("provider returned " ++ Status resp ++ ": "
                    ++ truncate body 700)), n'))
  /\ ((StatusCode resp < 400)%Z ->
      forall o, out = Some o ->
        (TrimSpace body = "" ->
           doJSON req payload out n = ((Some o, None), n'))
        /\ (TrimSpace body <> "" ->
            doJSON req payload out n
            = (match unmarshal body o with
               | (o', None) => (Some o', None)
               | (o', Some e) =>
                   (Some o',
                    Some ("decode response JSON: " ++ e ++ "; body="
                          ++ truncate body 700))
               end, n')))
  /\ (String.length body <= 700 -> truncate body 700 = body)
  /\ (700 < String.length body ->
      truncate body 700 = take 700 body ++ "..."
      /\ String.length (take 700 body) = 700
      /\ body = take 700 body ++ drop 700 body).
Proof.
  intros Hs n' body. unfold doJSON, bind, clientDo. rewrite Hs. fold n'.
  split; [|split; [|split]].
  - intro H. apply Z.leb_le in H. now rewrite H.
  - intros H o ->. apply Z.leb_gt in H. rewrite H. fold body. split.
    + intro E. apply isEmpty_true in E. now rewrite E.
    + intro E. apply isEmpty_false in E. rewrite E.
      destruct (unmarshal body o) as [o' [e|]]; reflexivity.
  - apply truncate_short.
  - apply truncate_long.
Qed.
End DoJSON.

(** ** The Anthropic adapter and [ExpectJSON] *)

Section AnthropicJSONMode.
Context {P : Platform}.
Context {decodeMessages : JSONTarget Anthropic.messagesResponse}.

(** C8: two requests that differ in [ExpectJSON] only make the
    Anthropic adapter build the same payload, of the four fields
    model, max_tokens (2048), system and messages, and behave the same
    on the network: the same requests go out, to the same URL and with
    the same headers, and the same result comes back. *)
Theorem anthropic_ExpectJSON_has_no_wire_effect
    (c : Anthropic.client) (model prompt question : string) (b1 b2 : bool) :
  let r1 := {| ReqModel := model; Prompt := prompt;
               Question := question; ExpectJSON := b1 |} in
  let r2 := {| ReqModel := model; Prompt := prompt;
               Question := question; ExpectJSON := b2 |} in
  Anthropic.messagesPayload r1 = Anthropic.messagesPayload r2
  /\ Anthropic.messagesPayload r1
     = JObject
         [ ("model", JString model);
           ("max_tokens", JNumber 2048 0);
           ("system", JString prompt);
           ("messages",
            JArray
              [ JObject
                  [ ("role", JString "user");
                    ("content",
                     JArray [ JObject [("type", JString "text");
                                       ("text", JString question)] ]) ] ]) ]
  /\ forall n, Anthropic.Ask c r1 n = Anthropic.Ask c r2 n.
Proof.
  intros r1 r2. repeat split.
Qed.
End AnthropicJSONMode.

(** ** What goes over the network *)

Section Traces.
Context {P : Platform}.

(** One call of [doJSON] sends one request. *)
Lemma doJSON_sent {Out : Type} {D : JSONTarget Out}
    (req : Request) (payload : option JSON) (out : option Out) (n : Net) :
  sent (snd (doJSON req payload out n))
  = (sent n ++ [withJSONBody req payload])%list.
Proof.
  unfold doJSON, bind, clientDo.
  destruct (serve (server n) (withJSONBody req payload)) as [rt s'].
  destruct rt as [e|e|resp]; try reflexivity.
  destruct (400 <=? StatusCode resp)%Z; [reflexivity|].
  destruct out as [o|]; [|reflexivity].
  destruct (isEmpty (TrimSpace (RespBody resp))); [reflexivity|].
  destruct (unmarshal (RespBody resp) o) as [o' [e|]]; reflexivity.
Qed.

Lemma Body_withJSONBody (req : Request) (p : JSON) :
  Body (withJSONBody req (Some p)) = Some p.
Proof. reflexivity. Qed.

Lemma URL_withJSONBody (req : Request) (p : option JSON) :
  URL (withJSONBody req p) = URL req.
Proof. destruct p; reflexivity. Qed.
End Traces.

(** ** The format fallback of the OpenAI-compatible adapter *)

Section OpenAIFallback.
Context {P : Platform}.
Context {decodeChat : JSONTarget OpenAICompatible.chatResponse}.
Import OpenAICompatible.

(** An attempt sends its payload in one request, or nothing when the
    request cannot be built. *)
Lemma askWithPayload_sent (c : client) (url : string) (reqBody : AskRequest)
    (include : bool) (m : Net) :
  exists calls,
    sent (snd (askWithPayload c url reqBody include m)) = (sent m ++ calls)%list
    /\ length calls <= 1
    /\ (urlError url = None -> length calls = 1)
    /\ Forall (fun q => Body q = Some (chatPayload reqBody include)
                        /\ URL q = url) calls.
Proof.
  unfold askWithPayload, NewRequest.
  destruct (urlError url) as [e|].
  - exists []. simpl. rewrite app_nil_r.
    repeat split; [lia | discriminate | constructor].
  - eexists [_]. unfold bind at 1.
    match goal with
    | |- context [doJSON ?r ?p ?o m] =>
        pose proof (doJSON_sent r p o m) as Hs;
        destruct (doJSON r p o m) as [res m']
    end.
    simpl in *. split; [exact Hs|].
    repeat split; try lia.
    constructor; [|constructor]. split; reflexivity.
Qed.

(** C1: the first attempt carries [response_format] exactly when
    [ExpectJSON] is set and the retry never does; an attempt is at most
    one HTTP call; when the first attempt fails, [ExpectJSON] is set and
    the lowered error text contains one of the three markers, [Ask]
    goes on with one second attempt, whose failure it returns; any
    other failure of the first attempt is returned at once; in all, at
    most two HTTP calls are made. *)
Theorem openai_Ask_retries_once_without_response_format
    (c : client) (reqBody : AskRequest) (n : Net) :
  let url := joinURL (base c) (chatPath c) in
  let first := askWithPayload c url reqBody true n in
  let retry := askWithPayload c url reqBody false (snd first) in
  field "response_format" (chatPayload reqBody true)
  = (if ExpectJSON reqBody
     then Some (JObject [("type", JString "json_object")]) else None)
  /\ field "response_format" (chatPayload reqBody false) = None
  /\ (forall include m, exists calls,
        sent (snd (askWithPayload c url reqBody include m)) = (sent m ++ calls)%list
        /\ length calls <= 1
        /\ (urlError url = None -> length calls = 1)
        /\ Forall (fun q => Body q = Some (chatPayload reqBody include)
                            /\ URL q = url) calls)
  /\ (validateAskRequest reqBody = None ->
      requiresAPIKey c && isEmpty (apiKey c) = false ->
      match snd (fst first) with
      | Some e1 =>
          if ExpectJSON reqBody
             && (let msg := ToLower e1 in
                 Contains msg "response_format"
                 || Contains msg "responsemimetype"
                 || Contains msg "response_mime_type")
          then snd (Ask c reqBody n) = snd retry
               /\ (forall e2, snd (fst retry) = Some e2 ->
                              Ask c reqBody n = (Err e2, snd retry))
          else Ask c reqBody n = (Err e1, snd first)
      | None => snd (Ask c reqBody n) = snd first
      end)
  /\ exists calls,
       sent (snd (Ask c reqBody n)) = (sent n ++ calls)%list /\ length calls <= 2.
Proof.
  intros url first retry. subst retry first url.
  remember (joinURL (base c) (chatPath c)) as url eqn:Hu.
  assert (Hunfold :
    validateAskRequest reqBody = None ->
    requiresAPIKey c && isEmpty (apiKey c) = false ->
    Ask c reqBody n
    = (r <- askWithPayload c url reqBody true;;
       r <- (match snd r with
             | Some e1 =>
                 if ExpectJSON reqBody
                    && (Contains (ToLower e1) "response_format"
                        || Contains (ToLower e1) "responsemimetype"
                        || Contains (ToLower e1) "response_mime_type")
                 then askWithPayload c url reqBody false
                 else ret r
             | None => ret r
             end);;
       match snd r with
       | Some e => ret (Err e)
       | None =>
           match Choices (fst r) with
           | [] => ret (Err ("no choices returned by " ++ name c))
           | first :: _ =>
               match extractMessageContent (Content (Message first)) with
               | Err e =>
                   ret (Err ("decode " ++ name c
                             ++ " response content: " ++ e))
               | Ok text => ret (Ok {| Text := text |})
               end
           end
       end) n).
  { intros Hv Hk. unfold Ask. rewrite Hv, Hk, <- Hu. unfold bind.
    destruct (askWithPayload c url reqBody true n) as [[resp1 [e1|]] n1];
      reflexivity. }
  assert (Hdecide :
    validateAskRequest reqBody = None ->
    requiresAPIKey c && isEmpty (apiKey c) = false ->
    match snd (fst (askWithPayload c url reqBody true n)) with
    | Some e1 =>
        if ExpectJSON reqBody
           && (Contains (ToLower e1) "response_format"
               || Contains (ToLower e1) "responsemimetype"
               || Contains (ToLower e1) "response_mime_type")
        then snd (Ask c reqBody n)
             = snd (askWithPayload c url reqBody false
                      (snd (askWithPayload c url reqBody true n)))
             /\ (forall e2,
                   snd (fst (askWithPayload c url reqBody false
                               (snd (askWithPayload c url reqBody true n))))
                   = Some e2 ->
                   Ask c reqBody n
                   = (Err e2,
                      snd (askWithPayload c url reqBody false
                             (snd (askWithPayload c url reqBody true n)))))
        else Ask c reqBody n
             = (Err e1, snd (askWithPayload c url reqBody true n))
    | None => snd (Ask c reqBody n)
              = snd (askWithPayload c url reqBody true n)
    end).
  { intros Hv Hk. specialize (Hunfold Hv Hk). unfold bind in Hunfold.
    destruct (askWithPayload c url reqBody true n) as [[resp1 err1] n1].
    cbn [fst snd] in *.
    destruct err1 as [e1|]; cbn [fst snd] in *.
    - destruct (ExpectJSON reqBody
                && (Contains (ToLower e1) "response_format"
                    || Contains (ToLower e1) "responsemimetype"
                    || Contains (ToLower e1) "response_mime_type")).
      + destruct (askWithPayload c url reqBody false n1)
          as [[resp2 err2] n2].
        cbn [fst snd] in *. rewrite Hunfold. split.
        * destruct err2 as [e2|]; [reflexivity|].
          destruct (Choices resp2) as [|ch ?]; [reflexivity|].
          destruct (extractMessageContent (Content (Message ch)));
            reflexivity.
        * intros e2 ->. reflexivity.
      + exact Hunfold.
    - rewrite Hunfold. unfold ret. cbn [fst snd].
      destruct (Choices resp1) as [|ch ?]; [reflexivity|].
      destruct (extractMessageContent (Content (Message ch))); reflexivity. }
  clear Hunfold. cbv zeta.
  split; [unfold chatPayload; destruct (ExpectJSON reqBody); reflexivity|].
  split; [unfold chatPayload; destruct (ExpectJSON reqBody); reflexivity|].
  split; [intros include m; apply askWithPayload_sent|].
  split; [exact Hdecide|].
  destruct (validateAskRequest reqBody) as [e|] eqn:Hv.
  { exists []. unfold Ask. rewrite Hv. simpl. rewrite app_nil_r.
    split; [reflexivity | lia]. }
  destruct (requiresAPIKey c && isEmpty (apiKey c)) eqn:Hk.
  { exists []. unfold Ask. rewrite Hv, Hk. simpl. rewrite app_nil_r.
    split; [reflexivity | lia]. }
  specialize (Hdecide eq_refl eq_refl).
  destruct (askWithPayload_sent c url reqBody true n)
    as [calls1 [Hs1 [Hl1 _]]].
  destruct (askWithPayload_sent c url reqBody false
              (snd (askWithPayload c url reqBody true n)))
    as [calls2 [Hs2 [Hl2 _]]].
  destruct (snd (fst (askWithPayload c url reqBody true n))) as [e1|].
  - destruct (ExpectJSON reqBody && _).
    + destruct Hdecide as [Hn _]. exists (calls1 ++ calls2)%list.
      rewrite Hn, Hs2, Hs1, <- app_assoc, length_app.
      split; [reflexivity | lia].
    + exists calls1. rewrite Hdecide. simpl. split; [exact Hs1 | lia].
  - exists calls1. rewrite Hdecide. split; [exact Hs1 | lia].
Qed.
End OpenAIFallback.

(** ** Model catalogs *)

Section Catalogs.
Context {P : Platform}.
Context {decodeOpenAI : JSONTarget OpenAICompatible.modelsResponse}.
Context {decodeAnthropic : JSONTarget Anthropic.modelsResponse}.
Context {decodeGemini : JSONTarget Gemini.modelsResponse}.
Context {decodeOllama : JSONTarget Ollama.tagsResponse}.

(** The list that every [ListModels] builds: sorted, and free of empty
    identifiers when no iteration of the loop appends one. *)
Lemma sorted_catalog {A : Type} (step : A -> list Model) (xs : list A) :
  (forall x m, In m (step x) -> ID m <> "") ->
  StronglySorted leID (sortSlice lessID (collect step xs))
  /\ Forall (fun m => ID m <> "") (sortSlice lessID (collect step xs)).
Proof.
  intro Hstep. split; [apply sortSlice_sorted|].
  eapply Permutation_Forall; [symmetry; apply sortSlice_perm|].
  rewrite collect_flat_map. apply Forall_forall. intros m Hm.
  apply in_flat_map in Hm. destruct Hm as [x [_ Hx]]. eauto.
Qed.

Ltac step_nonempty :=
  let x := fresh "x" in let m := fresh "m" in let Hm := fresh "Hm" in
  intros x m Hm; cbv zeta in Hm;
  repeat match type of Hm with
         | context [if ?b then _ else _] =>
             let E := fresh "E" in destruct b eqn:E
         end;
  simpl in Hm;
  repeat match goal with
         | H : _ \/ _ |- _ => destruct H
         | H : False |- _ => destruct H
         end;
  subst; simpl;
  match goal with
  | E : isEmpty ?s = false |- ?s <> "" => now apply isEmpty_false
  end.

Lemma gemini_listStep_nonempty (x : Gemini.modelsEntry) (m : Model) :
  In m (Gemini.listStep x) -> ID m <> "".
Proof. revert x m. unfold Gemini.listStep. step_nonempty. Qed.

(** C4: whatever catalog the provider sends, the list that [ListModels]
    returns is sorted in ascending order of [ID] and holds no entry with
    an empty [ID]. *)
Theorem ListModels_sorted_without_empty_ids :
  (forall (c : OpenAICompatible.client) n ms,
      fst (OpenAICompatible.ListModels c n) = Ok ms ->
      StronglySorted leID ms /\ Forall (fun m => ID m <> "") ms)
  /\ (forall (c : Anthropic.client) n ms,
      fst (Anthropic.ListModels c n) = Ok ms ->
      StronglySorted leID ms /\ Forall (fun m => ID m <> "") ms)
  /\ (forall (c : Gemini.client) n ms,
      fst (Gemini.ListModels c n) = Ok ms ->
      StronglySorted leID ms /\ Forall (fun m => ID m <> "") ms)
  /\ (forall (c : Ollama.client) n ms,
      fst (Ollama.ListModels c n) = Ok ms ->
      StronglySorted leID ms /\ Forall (fun m => ID m <> "") ms).
Proof.
  split; [|split; [|split]]; intros c n ms H.
  all: unfold OpenAICompatible.ListModels, Anthropic.ListModels,
         Gemini.ListModels, Ollama.ListModels, bind, ret in H.
  all: repeat match type of H with
         | context [if ?b then _ else _] => destruct b
         | context [match NewRequest ?a ?b with _ => _ end] =>
             destruct (NewRequest a b)
         | context [let (_, _) := ?d in _] => destruct d as [[? [?|]] ?]
         end; simpl in H; try discriminate.
  all: injection H as <-.
  all: try (apply sorted_catalog; step_nonempty).
  all: try (apply sorted_catalog; apply gemini_listStep_nonempty).
Qed.

(** The entries of a Gemini catalog that [ListModels] keeps. *)
Lemma gemini_listStep_spec (e : Gemini.modelsEntry) (m : Model) :
  In m (Gemini.listStep e) <->
  supportsGenerateContent (Gemini.SupportedGenerationMethods e) = true
  /\ TrimPrefix (TrimSpace (Gemini.EntryName e)) "models/" <> ""
  /\ m = {| ID := TrimPrefix (TrimSpace (Gemini.EntryName e)) "models/";
            DisplayName :=
              if isEmpty (TrimSpace (Gemini.EntryDisplayName e))
              then TrimPrefix (TrimSpace (Gemini.EntryName e)) "models/"
              else TrimSpace (Gemini.EntryDisplayName e) |}.
Proof.
  unfold Gemini.listStep.
  destruct (supportsGenerateContent (Gemini.SupportedGenerationMethods e)).
  2:{ simpl. split; [tauto | intros [H _]; discriminate]. }
  simpl negb. cbv iota zeta.
  destruct (isEmpty (TrimPrefix (TrimSpace (Gemini.EntryName e)) "models/"))
    eqn:E.
  - apply isEmpty_true in E. simpl. split; [tauto|]. intros [_ [H _]]. auto.
  - apply isEmpty_false in E. simpl. split.
    + intros [<-|[]]. auto.
    + intros [_ [_ ->]]. auto.
Qed.

Lemma supportsGenerateContent_spec (methods : list string) :
  supportsGenerateContent methods = true <->
  exists method, In method methods
                 /\ EqualFold (TrimSpace method) "generateContent" = true.
Proof.
  induction methods as [|x t IH]; simpl.
  - split; [discriminate | intros [? [[] _]]].
  - destruct (EqualFold (TrimSpace x) "generateContent") eqn:E.
    + split; [eauto | reflexivity].
    + rewrite IH. split.
      * intros [y [Hy Hf]]. eauto.
      * intros [y [[->|Hy] Hf]]; [congruence | eauto].
Qed.

(** C6 (as the code has it): a successful Gemini [ListModels] returns,
    sorted, the models of exactly those catalog entries that have a
    method equal to generateContent up to case and surrounding space
    and whose identifier, the name trimmed and without its models/
    prefix, is not empty. *)
Theorem gemini_ListModels_keeps_generateContent_entries
    (c : Gemini.client) (n : Net) (ms : list Model) :
  fst (Gemini.ListModels c n) = Ok ms ->
  exists req r,
    doJSON req None (Some {| Gemini.Models := [] |}) n
    = (r, snd (Gemini.ListModels c n))
    /\ snd r = None
    /\ forall m,
        In m ms <->
        exists e,
          In e (Gemini.Models (deref {| Gemini.Models := [] |} (fst r)))
          /\ (exists method,
                 In method (Gemini.SupportedGenerationMethods e)
                 /\ EqualFold (TrimSpace method) "generateContent" = true)
          /\ TrimPrefix (TrimSpace (Gemini.EntryName e)) "models/" <> ""
          /\ m = {| ID := TrimPrefix (TrimSpace (Gemini.EntryName e)) "models/";
                    DisplayName :=
                      if isEmpty (TrimSpace (Gemini.EntryDisplayName e))
                      then TrimPrefix (TrimSpace (Gemini.EntryName e))
                                      "models/"
                      else TrimSpace (Gemini.EntryDisplayName e) |}.
Proof.
  unfold Gemini.ListModels, bind, ret.
  destruct (isEmpty (Gemini.apiKey c)); [discriminate|].
  destruct (NewRequest "GET" (joinURL (Gemini.base c) "/models"))
    as [req|e]; [|discriminate].
  destruct (doJSON (Gemini.setHeaders c req) None
              (Some {| Gemini.Models := [] |}) n) as [[out [e|]] n'] eqn:E;
    simpl; [discriminate|].
  intro H. injection H as <-.
  exists (Gemini.setHeaders c req), (out, None).
  split; [exact E|]. split; [reflexivity|]. simpl fst.
  intro m. split.
  - intro Hm.
    apply (Permutation_in _ (sortSlice_perm lessID _)) in Hm.
    rewrite collect_flat_map in Hm. apply in_flat_map in Hm.
    destruct Hm as [e [He Hm]]. exists e. split; [exact He|].
    apply gemini_listStep_spec in Hm. destruct Hm as [Hs Hm].
    split; [now apply supportsGenerateContent_spec | exact Hm].
  - intros [e [He [Hs Hm]]].
    apply (Permutation_in _ (Permutation_sym (sortSlice_perm lessID _))).
    rewrite collect_flat_map. apply in_flat_map. exists e.
    split; [exact He|]. apply gemini_listStep_spec.
    split; [now apply supportsGenerateContent_spec | exact Hm].
Qed.
End Catalogs.

(** ** The model identifier of the Gemini adapter *)

Section GeminiModelID.
Context {P : Platform}.
Context {decodeGenerate : JSONTarget Gemini.generateResponse}.

(** Where [joinURL] sends a generateContent path. *)
Lemma joinURL_generateContent (base id : string) :
  joinURL base ("/models/" ++ id ++ ":generateContent")
  = TrimRightByte (TrimSpace base) "/"
    ++ "/models/" ++ id ++ ":generateContent".
Proof.
  assert (E : "/models/" ++ id ++ ":generateContent"
              = String "/" (("models/" ++ id ++ ":generateConten")
                            ++ String "t" "")).
  { simpl. do 8 f_equal. now rewrite append_assoc. }
  unfold joinURL. rewrite E.
  rewrite TrimSpace_keep by (vm_compute; reflexivity).
  unfold HasPrefix. simpl.
  destruct (ascii_dec "h" "/") as [H|_]; [discriminate H|].
  destruct (ascii_dec "/" "/") as [_|H]; [|now elim H].
  simpl. destruct (_ ++ String "t" ""); reflexivity.
Qed.

(** C7 (as the code has it): Gemini [Ask] trims the model and removes
    one leading models/ from it.  When nothing is left, [Ask] fails and
    sends no request; the failure is the validation error "model is
    required" when the question is not blank and the client has an API
    key, the checks of the question and of the key coming first.
    Otherwise the requests of [Ask] go to
    base/models/<id>:generateContent. *)
Theorem gemini_Ask_normalizes_model_id
    (c : Gemini.client) (reqBody : AskRequest) (n : Net) :
  let id := TrimPrefix (TrimSpace (ReqModel reqBody)) "models/" in
  let url := TrimRightByte (TrimSpace (Gemini.base c)) "/"
             ++ "/models/" ++ id ++ ":generateContent" in
  (forall x, TrimPrefix ("models/" ++ x) "models/" = x)
  /\ (id = "" ->
      exists e,
        Gemini.Ask c reqBody n = (Err e, n)
        /\ (TrimSpace (Question reqBody) <> "" -> Gemini.apiKey c <> "" ->
            e = "model is required"))
  /\ (id <> "" -> TrimSpace (Question reqBody) <> "" ->
      Gemini.apiKey c <> "" -> urlError url = None ->
      exists q rest,
        sent (snd (Gemini.Ask c reqBody n)) = (sent n ++ q :: rest)%list
        /\ Forall (fun q' => URL q' = url) (q :: rest)).
Proof.
  intros id url. subst url id. cbv zeta.
  split; [intro x; apply TrimPrefix_append|]. split.
  - intro Hid. unfold Gemini.Ask, validateAskRequest.
    destruct (isEmpty (TrimSpace (ReqModel reqBody))).
    { eexists. split; [reflexivity|]. reflexivity. }
    destruct (isEmpty (TrimSpace (Question reqBody))) eqn:Eq.
    { apply isEmpty_true in Eq. eexists. split; [reflexivity|]. tauto. }
    destruct (isEmpty (Gemini.apiKey c)) eqn:Ek.
    { apply isEmpty_true in Ek. eexists. split; [reflexivity|]. tauto. }
    cbv zeta. rewrite Hid. eexists. split; reflexivity.
  - intros Hid Hq Hk Hurl. unfold Gemini.Ask, validateAskRequest.
    assert (Hm : isEmpty (TrimSpace (ReqModel reqBody)) = false).
    { apply isEmpty_false. intro E. apply Hid. now rewrite E. }
    apply isEmpty_false in Hq, Hk, Hid. rewrite Hm, Hq, Hk.
    cbv zeta. rewrite Hid.
    rewrite joinURL_generateContent.
    unfold NewRequest. rewrite Hurl. unfold bind.
    match goal with
    | |- context [doJSON ?r ?p ?o n] =>
        pose proof (doJSON_sent r p o n) as Hs1;
        destruct (doJSON r p o n) as [[out1 err1] n1]
    end.
    cbn [fst snd] in *.
    destruct err1 as [e1|].
    2:{ eexists _, []. split; [exact Hs1|].
        constructor; [|constructor]. apply URL_withJSONBody. }
    destruct (ExpectJSON reqBody && _).
    2:{ eexists _, []. split; [exact Hs1|].
        constructor; [|constructor]. apply URL_withJSONBody. }
    match goal with
    | |- context [doJSON ?r ?p ?o n1] =>
        pose proof (doJSON_sent r p o n1) as Hs2;
        destruct (doJSON r p o n1) as [[out2 err2] n2]
    end.
    cbn [fst snd] in *.
    eexists _, [_]. split.
    + destruct err2; unfold ret; cbn [snd];
        rewrite Hs2, Hs1, <- app_assoc; reflexivity.
    + constructor; [apply URL_withJSONBody|].
      constructor; [apply URL_withJSONBody | constructor].
Qed.
End GeminiModelID.

(** ** The auth header of the OpenAI-compatible adapter *)

Section OpenAIAuth.
Context {P : Platform}.
Context {decodeModels : JSONTarget OpenAICompatible.modelsResponse}.
Context {decodeChat : JSONTarget OpenAICompatible.chatResponse}.
Import OpenAICompatible.

Lemma Header_Get_Set (key value : string) (h : Header) :
  Header_Get key (Header_Set key value h) = Some value.
Proof.
  unfold Header_Get, Header_Set. simpl. now rewrite String.eqb_refl.
Qed.

(** C10 (as the code has it): a client that does not require a key
    sends the static headers only, whatever key the options hold: its
    [ListModels] and [Ask] behave as those of the same client built
    without a key.  The adapter itself puts the auth header, prefix and
    key, on a request exactly when the client requires a key and has
    one; any other header of that name comes from the static headers. *)
Theorem openai_auth_header_only_for_required_key
    (settings : OpenAICompatibleSettings) (opts : ClientOptions) :
  let c := newOpenAICompatibleClient settings opts in
  let noKey := newOpenAICompatibleClient settings
                 {| APIKey := ""; BaseURL := BaseURL opts;
                    Headers := Headers opts |} in
  (RequireAPIKey settings = false ->
     (forall req,
         Hdr (setHeaders c req) = setStaticHeaders (Headers opts) (Hdr req))
     /\ (forall n, ListModels c n = ListModels noKey n)
     /\ (forall reqBody n, Ask c reqBody n = Ask noKey reqBody n))
  /\ (forall req,
        Hdr (setHeaders c req)
        = setStaticHeaders (Headers opts)
            (if RequireAPIKey settings && negb (isEmpty (apiKey c))
             then Header_Set (authHeader c) (authPrefix c ++ apiKey c)
                             (Hdr req)
             else Hdr req))
  /\ (forall req,
        Headers opts = [] -> Hdr req = [] ->
        Header_Get (authHeader c) (Hdr (setHeaders c req))
        = if RequireAPIKey settings && negb (isEmpty (apiKey c))
          then Some (authPrefix c ++ apiKey c) else None).
Proof.
  intros c noKey. split; [|split].
  - intro Hr.
    assert (Hs : forall req, setHeaders c req = setHeaders noKey req).
    { intro req. unfold setHeaders, requiresAPIKey. subst c noKey.
      unfold newOpenAICompatibleClient. cbn [requireAPIKey headers Headers].
      now rewrite Hr. }
    split; [|split].
    + intro req. unfold setHeaders, requiresAPIKey. subst c.
      unfold newOpenAICompatibleClient. cbn [requireAPIKey headers Hdr withHeader].
      now rewrite Hr.
    + intro n. unfold ListModels, requiresAPIKey.
      replace (requireAPIKey c) with false by (symmetry; exact Hr).
      replace (requireAPIKey noKey) with false by (symmetry; exact Hr).
      cbn [andb].
      change (base noKey) with (base c).
      change (modelsPath noKey) with (modelsPath c).
      destruct (NewRequest "GET" (joinURL (base c) (modelsPath c)));
        [|reflexivity].
      now rewrite Hs.
    + intros reqBody n. unfold Ask, askWithPayload, requiresAPIKey.
      replace (requireAPIKey c) with false by (symmetry; exact Hr).
      replace (requireAPIKey noKey) with false by (symmetry; exact Hr).
      cbn [andb].
      change (base noKey) with (base c).
      change (chatPath noKey) with (chatPath c).
      change (name noKey) with (name c).
      destruct (validateAskRequest reqBody); [reflexivity|].
      destruct (NewRequest "POST" (joinURL (base c) (chatPath c)));
        [|reflexivity].
      now rewrite Hs.
  - intro req. reflexivity.
  - intros req Hh Hq. unfold setHeaders, requiresAPIKey.
    change (headers c) with (Headers opts).
    change (requireAPIKey c) with (RequireAPIKey settings).
    rewrite Hh, Hq. cbn [withHeader Hdr setStaticHeaders fold_left].
    destruct (RequireAPIKey settings && negb (isEmpty (apiKey c)));
      [apply Header_Get_Set | reflexivity].
Qed.
End OpenAIAuth.

(** ** Content extraction and the text of a reply *)

Section ReplyText.
Context {P : Platform}.
Context {decodeOpenAI : JSONTarget OpenAICompatible.chatResponse}.
Context {decodeAnthropic : JSONTarget Anthropic.messagesResponse}.
Context {decodeGemini : JSONTarget Gemini.generateResponse}.
Context {decodeOllama : JSONTarget Ollama.chatResponse}.

Lemma extractMessageContent_array (items : list JSON) :
  extractMessageContent (JArray items)
  = match textFragments items with
    | [] => Err "array content had no text parts"
    | _ :: _ => Ok (TrimSpace (Join (textFragments items) nl))
    end.
Proof.
  unfold extractMessageContent.
  rewrite collect_flat_map.
  match goal with
  | |- context [flat_map ?f items] =>
      replace (flat_map f items) with (textFragments items)
  end.
  - destruct (textFragments items); reflexivity.
  - unfold textFragments. apply flat_map_ext.
    intros [| | | | |obj]; try reflexivity. cbv zeta.
    destruct (lookup "text" obj) as [[| | |t| |]|]; reflexivity.
Qed.

(** C5 (as the code has it): a string is returned trimmed; a list
    yields its text fragments joined by line feeds, in order, and the
    joined text is trimmed in its turn; a list without a text fragment
    and a content of any other shape are errors. *)
Theorem extractMessageContent_by_shape :
  (forall s, extractMessageContent (JString s) = Ok (TrimSpace s))
  /\ (forall items,
        textFragments items <> [] ->
        extractMessageContent (JArray items)
        = Ok (TrimSpace (Join (textFragments items) nl)))
  /\ (forall items,
        textFragments items = [] ->
        extractMessageContent (JArray items)
        = Err "array content had no text parts")
  /\ extractMessageContent
       (JArray [JObject [("text", JString "a")];
                JObject [("text", JString "b")]])
     = Ok ("a" ++ nl ++ "b")
  /\ (forall content,
        (forall s, content <> JString s) ->
        (forall items, content <> JArray items) ->
        extractMessageContent content
        = Err ("unsupported content type " ++ typeName content)).
Proof.
  split; [reflexivity|]. split; [|split; [|split]].
  - intros items H. rewrite extractMessageContent_array.
    destruct (textFragments items); [congruence | reflexivity].
  - intros items H. rewrite extractMessageContent_array. now rewrite H.
  - vm_compute. reflexivity.
  - intros content Hs Ha.
    destruct content; try reflexivity; exfalso;
      [eapply Hs | eapply Ha]; reflexivity.
Qed.

Lemma textFragments_usable (items : list JSON) :
  Forall (fun p => TrimSpace p <> "") (textFragments items).
Proof.
  apply Forall_forall. intros p Hp. unfold textFragments in Hp.
  apply in_flat_map in Hp. destruct Hp as [item [_ Hp]].
  destruct item as [| | | |l|obj]; try contradiction.
  destruct (lookup "text" obj) as [[| | |t| |]|]; try contradiction.
  destruct (isEmpty (TrimSpace t)) eqn:E; [contradiction|].
  destruct Hp as [<-|[]]. now apply isEmpty_false.
Qed.

Lemma extractMessageContent_trimmed (content : JSON) (t : string) :
  extractMessageContent content = Ok t -> TrimSpace t = t.
Proof.
  destruct content as [| | |s|items|]; try discriminate.
  - intro H. injection H as <-. apply TrimSpace_idempotent.
  - rewrite extractMessageContent_array.
    destruct (textFragments items); [discriminate|].
    intro H. injection H as <-. apply TrimSpace_idempotent.
Qed.

Lemma extractMessageContent_array_visible (items : list JSON) (t : string) :
  extractMessageContent (JArray items) = Ok t -> t <> "".
Proof.
  rewrite extractMessageContent_array.
  destruct (textFragments items) as [|p ps] eqn:E; [discriminate|].
  intro H. injection H as <-.
  change (TrimSpace (Join (p :: ps) nl) <> "").
  apply Join_usable; [discriminate|].
  rewrite <- E. apply textFragments_usable.
Qed.

(** The loops that keep the text of some blocks or parts. *)
Lemma collect_keep {A : Type} (keep : A -> bool) (text : A -> string)
    (xs : list A) :
  collect (fun x => if keep x then [text x] else []) xs
  = map text (filter keep xs).
Proof.
  rewrite collect_flat_map.
  induction xs as [|x t IH]; [reflexivity|].
  simpl. destruct (keep x); simpl; now rewrite IH.
Qed.

Lemma kept_text_visible {A : Type} (text : A -> string) (xs : list A) :
  let keep x := negb (isEmpty (TrimSpace (text x))) in
  forall extra : A -> bool,
    map text (filter (fun x => extra x && keep x) xs) <> [] ->
    TrimSpace (Join (map text (filter (fun x => extra x && keep x) xs)) nl)
    <> "".
Proof.
  intros keep extra Hne. apply Join_usable; [exact Hne|].
  apply Forall_forall. intros p Hp. apply in_map_iff in Hp.
  destruct Hp as [x [<- Hx]]. apply filter_In in Hx.
  destruct Hx as [_ Hx]. apply andb_true_iff in Hx. destruct Hx as [_ Hx].
  apply isEmpty_false. unfold keep in Hx. now destruct (isEmpty _).
Qed.

Lemma textBlocks_visible (blocks : list Anthropic.block) :
  textBlocks blocks <> [] -> TrimSpace (Join (textBlocks blocks) nl) <> "".
Proof.
  exact (kept_text_visible Anthropic.BlockText blocks
           (fun b => String.eqb (Anthropic.BlockType b) "text")).
Qed.

Lemma textParts_visible (parts : list Gemini.part) :
  textParts parts <> [] -> TrimSpace (Join (textParts parts) nl) <> "".
Proof.
  intro H.
  assert (E : textParts parts
              = map Gemini.PartText
                  (filter (fun p => true
                                    && negb (isEmpty (TrimSpace (Gemini.PartText p))))
                          parts)) by reflexivity.
  rewrite E in *.
  exact (kept_text_visible Gemini.PartText parts (fun _ => true) H).
Qed.

Lemma Join_kept_single {A : Type} (keep : A -> bool) (text : A -> string)
    (x : A) :
  map text (filter keep [x]) <> [] ->
  Join (map text (filter keep [x])) nl = text x.
Proof. simpl. destruct (keep x); [reflexivity | intro H; now elim H]. Qed.

(** The end of the Gemini [Ask] in the words of the specification. *)
Lemma gemini_textOf (reply : Gemini.generateResponse) :
  Gemini.textOf reply
  = match Gemini.Candidates reply with
    | [] => Err "no candidates returned by Gemini"
    | candidate :: _ =>
        match textParts (Gemini.Parts (Gemini.Content candidate)) with
        | [] => Err "Gemini response had no text parts"
        | _ :: _ =>
            Ok {| Text := Join (textParts
                                  (Gemini.Parts (Gemini.Content candidate)))
                               nl |}
        end
    end.
Proof.
  unfold Gemini.textOf. destruct (Gemini.Candidates reply) as [|first ?];
    [reflexivity|].
  rewrite (collect_keep
             (fun p => negb (isEmpty (TrimSpace (Gemini.PartText p))))
             Gemini.PartText).
  fold (textParts (Gemini.Parts (Gemini.Content first))).
  destruct (textParts _); reflexivity.
Qed.

Lemma gemini_text_of_reply (reply : Gemini.generateResponse) :
  (forall resp,
      Gemini.textOf reply = Ok resp ->
      exists candidate rest,
        Gemini.Candidates reply = candidate :: rest
        /\ Text resp
           = Join (textParts (Gemini.Parts (Gemini.Content candidate))) nl
        /\ (forall p, Gemini.Parts (Gemini.Content candidate) = [p] ->
                      Text resp = Gemini.PartText p)
        /\ TrimSpace (Text resp) <> "" /\ Text resp <> "")
  /\ (Gemini.Candidates reply = []
      \/ (exists candidate rest,
             Gemini.Candidates reply = candidate :: rest
             /\ textParts (Gemini.Parts (Gemini.Content candidate)) = []) ->
      exists e, Gemini.textOf reply = Err e).
Proof.
  rewrite gemini_textOf.
  destruct (Gemini.Candidates reply) as [|candidate rest].
  - split; [discriminate|]. intros _. eexists; reflexivity.
  - destruct (textParts (Gemini.Parts (Gemini.Content candidate)))
      as [|p ps] eqn:TP.
    + split; [discriminate|]. intros _. eexists; reflexivity.
    + split.
      * intros resp H.
        assert (Hr : Text resp = Join (p :: ps) nl)
          by (injection H as <-; reflexivity).
        exists candidate, rest. split; [reflexivity|].
        rewrite Hr, <- TP. split; [reflexivity|]. split.
        -- intros q Hq. unfold textParts. rewrite Hq.
           apply (Join_kept_single _ Gemini.PartText).
           unfold textParts in TP. rewrite Hq in TP. rewrite TP.
           discriminate.
        -- split.
           ++ apply textParts_visible. rewrite TP. discriminate.
           ++ apply TrimSpace_nonempty, textParts_visible.
              rewrite TP. discriminate.
      * intros [H|[candidate' [rest' [H H']]]]; [discriminate H|].
        injection H as <- <-. rewrite TP in H'. discriminate H'.
Qed.

(** The end of the OpenAI-compatible [Ask], once the reply is decoded. *)
Lemma openai_text_of_reply (content : JSON) (t : string) :
  extractMessageContent content = Ok t ->
  TrimSpace t = t
  /\ (forall s, content = JString s -> t = TrimSpace s)
  /\ (forall items, content = JArray items ->
        t = TrimSpace (Join (textFragments items) nl) /\ t <> "").
Proof.
  intro E. split; [eapply extractMessageContent_trimmed; exact E|]. split.
  - intros s Hc. rewrite Hc in E. simpl in E. congruence.
  - intros items Hc. rewrite Hc in E. split.
    + rewrite extractMessageContent_array in E.
      destruct (textFragments items); [discriminate | congruence].
    + eapply extractMessageContent_array_visible; exact E.
Qed.

Lemma openai_no_text_in_reply (content : JSON) :
  (forall s, content <> JString s) ->
  (forall items, content = JArray items -> textFragments items = []) ->
  exists e, extractMessageContent content = Err e.
Proof.
  intros Hs Ha. destruct content as [| | |s|items|obj];
    try (eexists; reflexivity).
  - now elim (Hs s).
  - rewrite extractMessageContent_array, (Ha items eq_refl).
    eexists; reflexivity.
Qed.

(** C3 (as the code has it).  A successful [Ask] reads its text from the
    reply decoded by its last call.  The OpenAI-compatible adapter
    returns the content of the first choice trimmed: a string content
    trimmed, a list content as its usable fragments joined by new lines
    and trimmed, which is not empty.  The Anthropic, Gemini and Ollama
    adapters return the text as the provider sent it (the usable text
    blocks, respectively parts of the first candidate, joined by new
    lines; the content of the message), and it holds more than white
    space.  A decoded reply without usable content (no choice, a
    content that is neither a string nor a list with a usable fragment;
    no usable block; no candidate or no usable part; a blank content)
    is an error of [Ask]. *)
Theorem Ask_text_on_success :
  (forall (c : OpenAICompatible.client) (reqBody : AskRequest) (n : Net),
      let url :=
        joinURL (OpenAICompatible.base c) (OpenAICompatible.chatPath c) in
      let first := OpenAICompatible.askWithPayload c url reqBody true n in
      let retry :=
        OpenAICompatible.askWithPayload c url reqBody false (snd first) in
      let final reply n' :=
        first = (reply, None, n')
        \/ (exists e1,
               snd (fst first) = Some e1
               /\ ExpectJSON reqBody
                  && responseFormatLikelyUnsupported (Some e1) = true
               /\ retry = (reply, None, n')) in
      (forall resp,
          fst (OpenAICompatible.Ask c reqBody n) = Ok resp ->
          exists reply choice rest,
            final reply (snd (OpenAICompatible.Ask c reqBody n))
            /\ OpenAICompatible.Choices reply = choice :: rest
            /\ extractMessageContent
                 (OpenAICompatible.Content (OpenAICompatible.Message choice))
               = Ok (Text resp)
            /\ TrimSpace (Text resp) = Text resp
            /\ (forall s,
                   OpenAICompatible.Content (OpenAICompatible.Message choice)
                   = JString s ->
                   Text resp = TrimSpace s)
            /\ (forall items,
                   OpenAICompatible.Content (OpenAICompatible.Message choice)
                   = JArray items ->
                   Text resp = TrimSpace (Join (textFragments items) nl)
                   /\ Text resp <> ""))
      /\ (validateAskRequest reqBody = None ->
          OpenAICompatible.requiresAPIKey c
          && isEmpty (OpenAICompatible.apiKey c) = false ->
          forall reply n',
            final reply n' ->
            OpenAICompatible.Choices reply = []
            \/ (exists choice rest,
                   OpenAICompatible.Choices reply = choice :: rest
                   /\ (forall s,
                          OpenAICompatible.Content
                            (OpenAICompatible.Message choice) <> JString s)
                   /\ (forall items,
                          OpenAICompatible.Content
                            (OpenAICompatible.Message choice) = JArray items ->
                          textFragments items = [])) ->
            exists e, OpenAICompatible.Ask c reqBody n = (Err e, n')))
  /\ (forall (c : Anthropic.client) (reqBody : AskRequest) (n : Net),
      let zero := {| Anthropic.Content := [] |} in
      let call req :=
        doJSON (Anthropic.setHeaders c req)
          (Some (Anthropic.messagesPayload reqBody)) (Some zero) n in
      (forall resp,
          fst (Anthropic.Ask c reqBody n) = Ok resp ->
          exists req out,
            NewRequest "POST" (joinURL (Anthropic.base c) "/v1/messages")
            = Ok req
            /\ call req = (out, None, snd (Anthropic.Ask c reqBody n))
            /\ Text resp
               = Join (textBlocks (Anthropic.Content (deref zero out))) nl
            /\ (forall b, Anthropic.Content (deref zero out) = [b] ->
                          Text resp = Anthropic.BlockText b)
            /\ TrimSpace (Text resp) <> "" /\ Text resp <> "")
      /\ (validateAskRequest reqBody = None ->
          Anthropic.apiKey c <> "" ->
          forall req out n',
            NewRequest "POST" (joinURL (Anthropic.base c) "/v1/messages")
            = Ok req ->
            call req = (out, None, n') ->
            textBlocks (Anthropic.Content (deref zero out)) = [] ->
            Anthropic.Ask c reqBody n
            = (Err "no text content returned by Anthropic", n')))
  /\ (forall (c : Gemini.client) (reqBody : AskRequest) (n : Net),
      let model := TrimPrefix (TrimSpace (ReqModel reqBody)) "models/" in
      let url :=
        joinURL (Gemini.base c) ("/models/" ++ model ++ ":generateContent") in
      let zero := {| Gemini.Candidates := [] |} in
      let first req :=
        doJSON (Gemini.setHeaders c req)
          (Some (Gemini.generatePayload reqBody (ExpectJSON reqBody)))
          (Some zero) n in
      let retry req :=
        doJSON (Gemini.setHeaders c req)
          (Some (Gemini.generatePayload reqBody false))
          (Some (deref zero (fst (fst (first req))))) (snd (first req)) in
      let final req reply n' :=
        (exists out, first req = (out, None, n') /\ reply = deref zero out)
        \/ (exists e1 out,
               snd (fst (first req)) = Some e1
               /\ ExpectJSON reqBody
                  && responseFormatLikelyUnsupported (Some e1) = true
               /\ retry req = (out, None, n')
               /\ reply = deref (deref zero (fst (fst (first req)))) out) in
      (forall resp,
          fst (Gemini.Ask c reqBody n) = Ok resp ->
          exists req reply candidate rest,
            NewRequest "POST" url = Ok req
            /\ final req reply (snd (Gemini.Ask c reqBody n))
            /\ Gemini.Candidates reply = candidate :: rest
            /\ Text resp
               = Join (textParts (Gemini.Parts (Gemini.Content candidate))) nl
            /\ (forall p, Gemini.Parts (Gemini.Content candidate) = [p] ->
                          Text resp = Gemini.PartText p)
            /\ TrimSpace (Text resp) <> "" /\ Text resp <> "")
      /\ (validateAskRequest reqBody = None ->
          Gemini.apiKey c <> "" ->
          model <> "" ->
          forall req reply n',
            NewRequest "POST" url = Ok req ->
            final req reply n' ->
            Gemini.Candidates reply = []
            \/ (exists candidate rest,
                   Gemini.Candidates reply = candidate :: rest
                   /\ textParts (Gemini.Parts (Gemini.Content candidate))
                      = []) ->
            exists e, Gemini.Ask c reqBody n = (Err e, n')))
  /\ (forall (c : Ollama.client) (reqBody : AskRequest) (n : Net),
      let zero := {| Ollama.Message := {| Ollama.Content := "" |} |} in
      let call req :=
        doJSON req (Some (Ollama.chatPayload reqBody)) (Some zero) n in
      (forall resp,
          fst (Ollama.Ask c reqBody n) = Ok resp ->
          exists req out,
            NewRequest "POST" (joinURL (Ollama.base c) "/api/chat") = Ok req
            /\ call req = (out, None, snd (Ollama.Ask c reqBody n))
            /\ Text resp = Ollama.Content (Ollama.Message (deref zero out))
            /\ TrimSpace (Text resp) <> "" /\ Text resp <> "")
      /\ (validateAskRequest reqBody = None ->
          forall req out n',
            NewRequest "POST" (joinURL (Ollama.base c) "/api/chat") = Ok req ->
            call req = (out, None, n') ->
            TrimSpace (Ollama.Content (Ollama.Message (deref zero out))) = "" ->
            Ollama.Ask c reqBody n
            = (Err "ollama response had empty content", n'))).
Proof.
  assert (V : forall t, TrimSpace t <> "" -> TrimSpace t <> "" /\ t <> "").
  { intros t H. split; [exact H | now apply TrimSpace_nonempty]. }
  split; [|split; [|split]]; intros c reqBody n.
  - (* the OpenAI-compatible adapter *)
    intros url first retry final. subst final retry first url.
    unfold OpenAICompatible.Ask.
    remember (joinURL (OpenAICompatible.base c) (OpenAICompatible.chatPath c))
      as u eqn:Hu. clear Hu.
    destruct (validateAskRequest reqBody) as [e|];
      [split; [discriminate | intro H; discriminate H]|].
    destruct (OpenAICompatible.requiresAPIKey c
              && isEmpty (OpenAICompatible.apiKey c));
      [split; [discriminate | intros _ H; discriminate H]|].
    cbv zeta. unfold bind.
    destruct (OpenAICompatible.askWithPayload c u reqBody true n)
      as [[resp1 err1] n1] eqn:E1.
    cbn [fst snd].
    assert (Tail : forall reply m,
      let r :=
        match OpenAICompatible.Choices reply with
        | [] =>
            ret (Err ("no choices returned by " ++ OpenAICompatible.name c))
        | first :: _ =>
            match
              extractMessageContent
                (OpenAICompatible.Content (OpenAICompatible.Message first))
            with
            | Ok text => ret (Ok {| Text := text |})
            | Err e =>
                ret (Err ("decode " ++ OpenAICompatible.name c
                          ++ " response content: " ++ e))
            end
        end m in
      snd r = m
      /\ (forall resp,
            fst r = Ok resp ->
            exists choice rest,
              OpenAICompatible.Choices reply = choice :: rest
              /\ extractMessageContent
                   (OpenAICompatible.Content (OpenAICompatible.Message choice))
                 = Ok (Text resp))
      /\ (OpenAICompatible.Choices reply = []
          \/ (exists choice rest,
                 OpenAICompatible.Choices reply = choice :: rest
                 /\ (forall s,
                        OpenAICompatible.Content
                          (OpenAICompatible.Message choice) <> JString s)
                 /\ (forall items,
                        OpenAICompatible.Content
                          (OpenAICompatible.Message choice) = JArray items ->
                        textFragments items = [])) ->
          exists e, r = (Err e, m))).
    { intros reply m.
      destruct (OpenAICompatible.Choices reply) as [|choice rest].
      - cbn. split; [reflexivity|]. split; [discriminate|].
        intros _. eexists; reflexivity.
      - destruct (extractMessageContent
                    (OpenAICompatible.Content
                       (OpenAICompatible.Message choice)))
          as [text|e] eqn:E; cbn.
        + split; [reflexivity|]. split.
          * intros resp H. injection H as <-. exists choice, rest.
            split; [reflexivity | exact E].
          * intros [H|[choice' [rest' [H [Hs Ha]]]]]; [discriminate H|].
            injection H as <- <-.
            destruct (openai_no_text_in_reply _ Hs Ha) as [e He].
            congruence.
        + split; [reflexivity|]. split; [discriminate|].
          intros _. eexists; reflexivity. }
    destruct err1 as [e1|].
    + destruct (ExpectJSON reqBody
                && responseFormatLikelyUnsupported (Some e1)) eqn:C.
      * destruct (OpenAICompatible.askWithPayload c u reqBody false n1)
          as [[resp2 err2] n2] eqn:E2.
        cbn [fst snd]. destruct err2 as [e2|].
        -- split; [discriminate|].
           intros _ _ reply n' [H|[e [_ [_ H]]]]; discriminate H.
        -- destruct (Tail resp2 n2) as [T1 [T2 T3]]. split.
           ++ intros resp H.
              destruct (T2 resp H) as [choice [rest [Hc He]]].
              exists resp2, choice, rest.
              split; [right; exists e1; rewrite T1; auto|].
              split; [exact Hc|]. split; [exact He|].
              apply openai_text_of_reply; exact He.
           ++ intros _ _ reply n' [H|[e [_ [_ H]]]]; [discriminate H|].
              injection H as <- <-. exact T3.
      * unfold ret. cbn [fst snd]. split; [discriminate|].
        intros _ _ reply n' [H|[e [He [Hc _]]]]; [discriminate H|].
        injection He as <-. congruence.
    + destruct (Tail resp1 n1) as [T1 [T2 T3]]. split.
      * intros resp H.
        destruct (T2 resp H) as [choice [rest [Hc He]]].
        exists resp1, choice, rest.
        split; [left; cbn; cbn in T1; rewrite T1; reflexivity|].
        split; [exact Hc|]. split; [exact He|].
        apply openai_text_of_reply; exact He.
      * intros _ _ reply n' [H|[e [H _]]]; [|discriminate H].
        injection H as <- <-. exact T3.
  - (* the Anthropic adapter *)
    intros zero call. subst call zero.
    unfold Anthropic.Ask.
    destruct (validateAskRequest reqBody) as [e|];
      [split; [discriminate | intro H; discriminate H]|].
    destruct (isEmpty (Anthropic.apiKey c)) eqn:K;
      [split; [discriminate | intros _ Hk; apply isEmpty_true in K;
                              contradiction]|].
    destruct (NewRequest "POST" (joinURL (Anthropic.base c) "/v1/messages"))
      as [req|e];
      [|split; [discriminate | intros _ _ req out n' H; discriminate H]].
    cbv zeta. unfold bind.
    destruct (doJSON (Anthropic.setHeaders c req)
                (Some (Anthropic.messagesPayload reqBody))
                (Some {| Anthropic.Content := [] |}) n)
      as [[out err] n1] eqn:E.
    cbn [fst snd].
    rewrite (collect_keep
               (fun b => String.eqb (Anthropic.BlockType b) "text"
                         && negb (isEmpty (TrimSpace (Anthropic.BlockText b))))
               Anthropic.BlockText).
    fold (textBlocks
            (Anthropic.Content (deref {| Anthropic.Content := [] |} out))).
    destruct err as [e|].
    + split; [discriminate|].
      intros _ _ req' out' n' H1 H2. injection H1 as <-.
      rewrite E in H2. discriminate H2.
    + destruct (textBlocks
                  (Anthropic.Content
                     (deref {| Anthropic.Content := [] |} out)))
        as [|p ps] eqn:TB.
      * split; [discriminate|].
        intros _ _ req' out' n' H1 H2 _. injection H1 as <-.
        rewrite E in H2. injection H2 as <- <-. reflexivity.
      * split.
        -- intros resp H.
           assert (Hr : Text resp = Join (p :: ps) nl)
             by (injection H as <-; reflexivity).
           exists req, out.
           split; [reflexivity|]. split; [rewrite E; reflexivity|].
           rewrite Hr, <- TB. split; [reflexivity|]. split.
           ++ intros b Hb. unfold textBlocks. rewrite Hb.
              apply (Join_kept_single _ Anthropic.BlockText).
              unfold textBlocks in TB. rewrite Hb in TB. rewrite TB.
              discriminate.
           ++ apply V. apply textBlocks_visible. rewrite TB. discriminate.
        -- intros _ _ req' out' n' H1 H2 H3. injection H1 as <-.
           rewrite E in H2. injection H2 as <- <-. rewrite TB in H3.
           discriminate H3.
  - (* the Gemini adapter *)
    intros model url zero first retry final.
    subst final retry first zero url model.
    unfold Gemini.Ask.
    destruct (validateAskRequest reqBody) as [e|];
      [split; [discriminate | intro H; discriminate H]|].
    destruct (isEmpty (Gemini.apiKey c)) eqn:K;
      [split; [discriminate | intros _ Hk; apply isEmpty_true in K;
                              contradiction]|].
    cbv zeta.
    destruct (isEmpty (TrimPrefix (TrimSpace (ReqModel reqBody)) "models/"))
      eqn:M;
      [split; [discriminate | intros _ _ Hm; apply isEmpty_true in M;
                              contradiction]|].
    destruct (NewRequest "POST"
                (joinURL (Gemini.base c)
                   ("/models/"
                    ++ TrimPrefix (TrimSpace (ReqModel reqBody)) "models/"
                    ++ ":generateContent")))
      as [req|e];
      [|split; [discriminate
               | intros _ _ _ req reply n' H; discriminate H]].
    unfold bind.
    destruct (doJSON (Gemini.setHeaders c req)
                (Some (Gemini.generatePayload reqBody (ExpectJSON reqBody)))
                (Some {| Gemini.Candidates := [] |}) n)
      as [[out1 err1] n1] eqn:E1.
    cbn [fst snd].
    assert (Fin : forall reply m,
      (forall resp,
          Gemini.textOf reply = Ok resp ->
          exists candidate rest,
            Gemini.Candidates reply = candidate :: rest
            /\ Text resp
               = Join (textParts (Gemini.Parts (Gemini.Content candidate))) nl
            /\ (forall p, Gemini.Parts (Gemini.Content candidate) = [p] ->
                          Text resp = Gemini.PartText p)
            /\ TrimSpace (Text resp) <> "" /\ Text resp <> "")
      /\ (Gemini.Candidates reply = []
          \/ (exists candidate rest,
                 Gemini.Candidates reply = candidate :: rest
                 /\ textParts (Gemini.Parts (Gemini.Content candidate)) = []) ->
          exists e, ret (Gemini.textOf reply) m = (Err e, m))).
    { intros reply m.
      destruct (gemini_text_of_reply reply) as [G1 G2].
      split; [exact G1|].
      intro H. destruct (G2 H) as [e He]. exists e. unfold ret.
      now rewrite He. }
    destruct err1 as [e1|].
    + destruct (ExpectJSON reqBody
                && responseFormatLikelyUnsupported (Some e1)) eqn:C.
      * destruct (doJSON (Gemini.setHeaders c req)
                    (Some (Gemini.generatePayload reqBody false))
                    (Some (deref {| Gemini.Candidates := [] |} out1)) n1)
          as [[out2 err2] n2] eqn:E2.
        cbn [fst snd]. destruct err2 as [e2|].
        -- split; [discriminate|].
           intros _ _ _ req' reply n' H. injection H as <-.
           rewrite E1. cbn [fst snd]. rewrite E2.
           intros [[out [H _]]|[e [out [_ [_ [H _]]]]]]; discriminate H.
        -- destruct (Fin (deref (deref {| Gemini.Candidates := [] |} out1)
                               out2) n2) as [F1 F2].
           split.
           ++ intros resp H.
              destruct (F1 resp H) as [candidate [rest F]].
              exists req, (deref (deref {| Gemini.Candidates := [] |} out1)
                                 out2), candidate, rest.
              split; [reflexivity|]. split; [|exact F].
              right. exists e1, out2. rewrite E1. cbn [fst snd].
              rewrite E2. auto.
           ++ intros _ _ _ req' reply n' H. injection H as <-.
              rewrite E1. cbn [fst snd]. rewrite E2.
              intros [[out [H _]]|[e [out [_ [_ [H ->]]]]]];
                [discriminate H|].
              injection H as <- <-. exact F2.
      * unfold ret. cbn [fst snd]. split; [discriminate|].
        intros _ _ _ req' reply n' H. injection H as <-.
        rewrite E1. cbn [fst snd].
        intros [[out [H _]]|[e [out [He [Hc _]]]]]; [discriminate H|].
        injection He as <-. congruence.
    + destruct (Fin (deref {| Gemini.Candidates := [] |} out1) n1)
        as [F1 F2].
      split.
      * intros resp H.
        destruct (F1 resp H) as [candidate [rest F]].
        exists req, (deref {| Gemini.Candidates := [] |} out1),
               candidate, rest.
        split; [reflexivity|]. split; [|exact F].
        left. exists out1. rewrite E1. auto.
      * intros _ _ _ req' reply n' H. injection H as <-.
        rewrite E1. cbn [fst snd].
        intros [[out [H ->]]|[e [out [H _]]]]; [|discriminate H].
        injection H as <- <-. exact F2.
  - (* the Ollama adapter *)
    intros zero call. subst call zero.
    unfold Ollama.Ask.
    destruct (validateAskRequest reqBody) as [e|];
      [split; [discriminate | intro H; discriminate H]|].
    destruct (NewRequest "POST" (joinURL (Ollama.base c) "/api/chat"))
      as [req|e];
      [|split; [discriminate | intros _ req out n' H; discriminate H]].
    cbv zeta. unfold bind.
    destruct (doJSON req (Some (Ollama.chatPayload reqBody))
                (Some {| Ollama.Message := {| Ollama.Content := "" |} |}) n)
      as [[out err] n1] eqn:E.
    cbn [fst snd]. destruct err as [e|].
    + split; [discriminate|].
      intros _ req' out' n' H1 H2. injection H1 as <-.
      rewrite E in H2. discriminate H2.
    + destruct (isEmpty
                  (TrimSpace
                     (Ollama.Content
                        (Ollama.Message
                           (deref {| Ollama.Message :=
                                       {| Ollama.Content := "" |} |} out)))))
        eqn:B.
      * split; [discriminate|].
        intros _ req' out' n' H1 H2 _. injection H1 as <-.
        rewrite E in H2. injection H2 as <- <-. reflexivity.
      * apply isEmpty_false in B. split.
        -- intros resp H. injection H as <-. exists req, out.
           split; [reflexivity|]. split; [rewrite E; reflexivity|].
           split; [reflexivity|]. apply V. exact B.
        -- intros _ req' out' n' H1 H2 H3. injection H1 as <-.
           rewrite E in H2. injection H2 as <- <-. contradiction.
Qed.
End ReplyText.

(** ** The properties on the scripted network *)

Section Examples.
Import Scenario.
Existing Instance scripted.
Existing Instance openaiChat.
Existing Instance openaiModels.
Existing Instance anthropicModels.
Existing Instance anthropicMessages.
Existing Instance geminiModels.
Existing Instance geminiGenerate.
Existing Instance ollamaTags.
Existing Instance ollamaChat.

Example openai_fallback_two_calls :
  OpenAICompatible.Ask openaiClient (question "gpt-a" true)
    (start [reply 400 "400 Bad Request" formatRejected;
            reply 200 "200 OK" chatReply])
  = (Ok {| Text := "ok" |},
     {| server := [];
        sent := [ {| Method := "POST";
                     URL := "https://api.openai.com/v1/chat/completions";
                     Hdr := [("Content-Type", "application/json");
                             ("Authorization", "Bearer sk-test")];
                     Body := Some (OpenAICompatible.chatPayload
                                     (question "gpt-a" true) true) |};
                  {| Method := "POST";
                     URL := "https://api.openai.com/v1/chat/completions";
                     Hdr := [("Content-Type", "application/json");
                             ("Authorization", "Bearer sk-test")];
                     Body := Some (OpenAICompatible.chatPayload
                                     (question "gpt-a" true) false) |} ] |}).
Proof. vm_compute. reflexivity. Qed.

(** Witness of C1: the first reply rejects [response_format], and [Ask]
    ends where its second attempt ends. *)
Lemma openai_Ask_retries_once_without_response_format_witness :
  let n := start [reply 400 "400 Bad Request" formatRejected;
                  reply 200 "200 OK" chatReply] in
  let url := "https://api.openai.com/v1/chat/completions" in
  snd (OpenAICompatible.Ask openaiClient (question "gpt-a" true) n)
  = snd (OpenAICompatible.askWithPayload openaiClient url
           (question "gpt-a" true) false
           (snd (OpenAICompatible.askWithPayload openaiClient url
                   (question "gpt-a" true) true n))).
Proof.
  intros n url.
  pose proof (openai_Ask_retries_once_without_response_format
                openaiClient (question "gpt-a" true) n) as H.
  cbv zeta in H. destruct H as [_ [_ [_ [H _]]]].
  specialize (H eq_refl eq_refl).
  vm_compute in H. destruct H as [H _]. vm_compute. exact H.
Defined.

(** Witness of C2: a model of two spaces. *)
Lemma Ask_validates_before_any_request_witness :
  exists e, forall c n, Ollama.Ask c (question "  " false) n = (Err e, n).
Proof.
  assert (Hb : TrimSpace (ReqModel (question "  " false)) = ""
               \/ TrimSpace (Question (question "  " false)) = "")
    by (left; reflexivity).
  destruct (Ask_validates_before_any_request (question "  " false) Hb)
    as [e [_ [_ [_ [_ H]]]]].
  exists e. exact H.
Defined.

(** The claim C3 fails: Ollama returns the content with the white space
    around it. *)
Lemma ollama_Ask_text_is_not_trimmed :
  exists resp,
    fst (Ollama.Ask ollamaClient (question "llama3.2" false)
           (start [reply 200 "200 OK" ollamaReply])) = Ok resp
    /\ TrimSpace (Text resp) <> Text resp.
Proof.
  exists {| Text := " hi " |}. split; [vm_compute; reflexivity|].
  vm_compute. discriminate.
Defined.

(** A string content of one space is a success of the OpenAI-compatible
    adapter, with an empty text. *)
Example openai_blank_string_content_succeeds :
  fst (@OpenAICompatible.Ask scripted openaiBlankChat openaiClient
         (question "gpt-a" false) (start [reply 200 "200 OK" blankReply]))
  = Ok {| Text := "" |}.
Proof. vm_compute. reflexivity. Qed.

(** Witness of C3 (as the code has it): the Ollama adapter returns the
    content of the decoded message with its white space, and a reply
    with a blank body, which leaves the message empty, is an error. *)
Lemma Ask_text_on_success_witness :
  (let c := ollamaClient in
   let reqBody := question "llama3.2" false in
   let n := start [reply 200 "200 OK" ollamaReply] in
   let zero := {| Ollama.Message := {| Ollama.Content := "" |} |} in
   exists req out,
     NewRequest "POST" (joinURL (Ollama.base c) "/api/chat") = Ok req
     /\ doJSON req (Some (Ollama.chatPayload reqBody)) (Some zero) n
        = (out, None, snd (Ollama.Ask c reqBody n))
     /\ " hi " = Ollama.Content (Ollama.Message (deref zero out))
     /\ TrimSpace " hi " <> "" /\ " hi " <> "")
  /\ fst (Ollama.Ask ollamaClient (question "llama3.2" false)
            (start [reply 200 "200 OK" "  "]))
     = Err "ollama response had empty content".
Proof.
  split.
  - exact (proj1 (proj2 (proj2 (proj2 Ask_text_on_success))
                    ollamaClient (question "llama3.2" false)
                    (start [reply 200 "200 OK" ollamaReply]))
             {| Text := " hi " |} eq_refl).
  - exact (f_equal fst
             (proj2 (proj2 (proj2 (proj2 Ask_text_on_success))
                       ollamaClient (question "llama3.2" false)
                       (start [reply 200 "200 OK" "  "]))
                eq_refl _ _ _ eq_refl eq_refl eq_refl)).
Defined.

(** Witness of C4: a catalog out of order with a blank identifier. *)
Lemma ListModels_sorted_without_empty_ids_witness :
  let ms := [{| ID := "gpt-a"; DisplayName := "gpt-a" |};
             {| ID := "gpt-b"; DisplayName := "gpt-b" |}] in
  StronglySorted leID ms /\ Forall (fun m => ID m <> "") ms.
Proof.
  exact (proj1 ListModels_sorted_without_empty_ids
           openaiClient (start [reply 200 "200 OK" openaiCatalog]) _
           eq_refl).
Defined.

(** The claim C5 fails: the join of the fragments is trimmed. *)
Lemma extractMessageContent_trims_the_join :
  let items := [JObject [("text", JString " a")]] in
  textFragments items = [" a"]
  /\ extractMessageContent (JArray items) = Ok "a"
  /\ extractMessageContent (JArray items)
     <> Ok (Join (textFragments items) nl).
Proof.
  split; [reflexivity|]. split; [vm_compute; reflexivity|].
  vm_compute. discriminate.
Defined.

(** Witness of C5 (as the code has it): a content that is null. *)
Lemma extractMessageContent_by_shape_witness :
  extractMessageContent JNull = Err "unsupported content type <nil>".
Proof.
  apply (proj2 (proj2 (proj2 (proj2 extractMessageContent_by_shape)))
           JNull); intros; discriminate.
Defined.

(** The claim C6 fails: an entry that supports generateContent and has
    no identifier is not kept. *)
Lemma gemini_ListModels_drops_entry_without_id :
  In nameless
     (Gemini.Models
        (fst (unmarshal geminiCatalog {| Gemini.Models := [] |})))
  /\ supportsGenerateContent (Gemini.SupportedGenerationMethods nameless)
     = true
  /\ fst (Gemini.ListModels geminiClient
            (start [reply 200 "200 OK" geminiCatalog]))
     = Ok [{| ID := "gemini-2.0-flash";
              DisplayName := "Gemini 2.0 Flash" |}].
Proof.
  split; [left; reflexivity|]. split; vm_compute; reflexivity.
Defined.

(** Witness of C6 (as the code has it): the model that is returned
    comes from an entry with the method and with an identifier. *)
Lemma gemini_ListModels_keeps_generateContent_entries_witness :
  exists e,
    (exists method,
        In method (Gemini.SupportedGenerationMethods e)
        /\ EqualFold (TrimSpace method) "generateContent" = true)
    /\ TrimPrefix (TrimSpace (Gemini.EntryName e)) "models/"
       = "gemini-2.0-flash".
Proof.
  assert (Hok : fst (Gemini.ListModels geminiClient
                       (start [reply 200 "200 OK" geminiCatalog]))
                = Ok [{| ID := "gemini-2.0-flash";
                         DisplayName := "Gemini 2.0 Flash" |}])
    by (vm_compute; reflexivity).
  destruct (gemini_ListModels_keeps_generateContent_entries
              geminiClient (start [reply 200 "200 OK" geminiCatalog])
              _ Hok)
    as [req [r [_ [_ H]]]].
  destruct (proj1 (H _) (or_introl eq_refl)) as [e [_ [Hm [_ He]]]].
  exists e. split; [exact Hm|]. injection He as He _. now symmetry.
Defined.

(** The claim C7 fails: without an API key the failure for the model
    models/ is the configuration error. *)
Lemma gemini_Ask_reports_missing_key_first :
  TrimPrefix (TrimSpace (ReqModel (question "models/" false))) "models/" = ""
  /\ Gemini.Ask geminiWithoutKey (question "models/" false) (start [])
     = (Err "GEMINI_API_KEY not configured", start []).
Proof. split; vm_compute; reflexivity. Defined.

(** Witness of C7 (as the code has it): the route of
    models/gemini-2.0-flash. *)
Lemma gemini_Ask_normalizes_model_id_witness :
  let n := start [reply 200 "200 OK" generateReply] in
  exists q rest,
    sent (snd (Gemini.Ask geminiClient
                 (question "models/gemini-2.0-flash" true) n))
    = (sent n ++ q :: rest)%list
    /\ Forall
         (fun q' =>
            URL q' = "https://generativelanguage.googleapis.com/v1beta"
                     ++ "/models/gemini-2.0-flash:generateContent")
         (q :: rest).
Proof.
  intro n.
  apply (proj2 (proj2 (gemini_Ask_normalizes_model_id geminiClient
                         (question "models/gemini-2.0-flash" true) n)));
    try (vm_compute; discriminate).
  reflexivity.
Defined.

(** Witness of C9: a reply of status 404. *)
Lemma doJSON_classifies_response_witness :
  let req := {| Method := "GET"; URL := "http://127.0.0.1:11434/api/tags";
                Hdr := []; Body := None |} in
  doJSON req None (Some {| Ollama.Models := [] |})
    (start [reply 404 "404 Not Found" "missing"])
  = ((Some {| Ollama.Models := [] |},
      Some ("provider returned 404 Not Found: " ++ truncate "missing" 700)),
     {| server := []; sent := [req] |}).
Proof.
  intro req.
  apply (proj1 (doJSON_classifies_response req None
                  (Some {| Ollama.Models := [] |})
                  (start [reply 404 "404 Not Found" "missing"])
                  {| StatusCode := 404; Status := "404 Not Found";
                     RespBody := "missing" |} [] eq_refl)).
  vm_compute. discriminate.
Defined.

(** The claim C10 fails: a client that requires no key sends the auth
    header that its static headers hold. *)
Lemma openai_static_auth_header_is_sent :
  RequireAPIKey customSettings = false
  /\ exists q,
       sent (snd (OpenAICompatible.Ask customClient (question "m" false)
                    (start [reply 200 "200 OK" chatReply]))) = [q]
       /\ Header_Get (OpenAICompatible.authHeader customClient) (Hdr q)
          = Some "Bearer static-token".
Proof.
  split; [reflexivity|]. eexists. split; vm_compute; reflexivity.
Defined.

(** Witness of C10 (as the code has it): the key of the options has no
    effect on the custom provider. *)
Lemma openai_auth_header_only_for_required_key_witness :
  OpenAICompatible.Ask customClient (question "m" false)
    (start [reply 200 "200 OK" chatReply])
  = OpenAICompatible.Ask
      (OpenAICompatible.newOpenAICompatibleClient customSettings
         {| APIKey := ""; BaseURL := BaseURL customOptions;
            Headers := Headers customOptions |})
      (question "m" false) (start [reply 200 "200 OK" chatReply]).
Proof.
  exact (proj2 (proj2 (proj1 (openai_auth_header_only_for_required_key
                                customSettings customOptions) eq_refl))
           (question "m" false) (start [reply 200 "200 OK" chatReply])).
Defined.
End Examples.
